(** * Checkpoint exporter and inspector

    A shallow embedding of [export_mlp_weights.py] and [inspect_model.py].

    Both scripts are straight-line procedures that print, may raise, and
    may leave through [sys.exit].  They are embedded in a small monad that
    records the trace of observable events next to the way the computation
    ends.  Everything supplied by the outside (the file system, what
    [torch.load] finds in the checkpoint, [load_state_dict]) is read from
    an explicit [World].

    Text is kept as the UTF-8 byte strings of the Python literals; a
    substring test on well-formed UTF-8 agrees with the one on code
    points. *)

From Stdlib Require Import Ascii QArith.
From stdpp Require Import base option list strings pretty gmap.

Set Warnings "-register-all".

Local Open Scope string_scope.
Local Open Scope list_scope.

(** ** Strings *)

Definition nl : string := String "010"%char EmptyString.

(** Python's [sub in s] on strings. *)
Fixpoint str_in (sub s : string) : bool :=
  String.prefix sub s ||
  match s with
  | EmptyString => false
  | String _ s' => str_in sub s'
  end.

(** [sep.join(l)] *)
Fixpoint join (sep : string) (l : list string) : string :=
  match l with
  | [] => EmptyString
  | [x] => x
  | x :: rest => x +:+ sep +:+ join sep rest
  end.

(** [repr] of a list of ints, as in [f"{list(param.shape)}"]. *)
Definition list_repr (l : list nat) : string :=
  "[" +:+ join ", " (pretty <$> l) +:+ "]".

(** [repr] of a [torch.Size], as in [f"{t.shape}"]. *)
Definition size_repr (l : list nat) : string :=
  "torch.Size(" +:+ list_repr l +:+ ")".

(** [f"{x}"] for a value that is [None] or an int. *)
Definition opt_repr (o : option nat) : string :=
  match o with
  | None => "None"
  | Some n => pretty n
  end.

(** ** Exceptions and the script monad *)

Inductive exn :=
| IndexError (msg : string)
| KeyError (msg : string)
| AttributeError (msg : string)
| ValueError (msg : string)
| RuntimeError (msg : string)
| OtherError (msg : string).

(** [str(e)], as interpolated by [f"{e}"]. *)
Definition exn_str (e : exn) : string :=
  match e with
  | IndexError m | AttributeError m | ValueError m | RuntimeError m
  | OtherError m => m
  | KeyError m => "'" +:+ m +:+ "'"
  end.

(** How a computation ends: with a value, with an exception derived from
    [Exception], or with [SystemExit] carrying a status. *)
Inductive outcome (A : Type) :=
| Return (a : A)
| Raise (e : exn)
| Exit (code : Z).
Arguments Return {A} a.
Arguments Raise {A} e.
Arguments Exit {A} code.

Section Scripts.

(** The element type of tensors.  The exporter only moves elements around
    ([detach], [cpu], [numpy], [tolist] change where and how a number is
    held, and the widening of a single-precision number to a Python float
    is exact), so the embedding is parametric in it. *)
Context {V : Type}.

(** ** Tensors *)

Record Tensor := mkTensor {
  shape : list nat;     (* [t.shape], a tuple of non-negative ints *)
  storage : list V      (* the elements in row-major order *)
}.

(** [math.prod(shape)], the number of elements. *)
Definition numel (sh : list nat) : nat := foldr Nat.mul 1 sh.

(** The invariant of a tensor: it holds exactly [numel shape] elements. *)
Definition wf_tensor (t : Tensor) : Prop :=
  length (storage t) = numel (shape t).

(** A nested Python list of numbers, the value of [tolist()] and of the
    JSON ['data'] field. *)
Inductive Nested :=
| Leaf (v : V)
| Arr (items : list Nested).

(** [n] consecutive blocks of [k] elements. *)
Fixpoint chunks (n k : nat) (l : list V) : list (list V) :=
  match n with
  | 0 => []
  | S n' => take k l :: chunks n' k (drop k l)
  end.

(** The nesting that [ndarray.tolist()] builds from the shape: a scalar for
    a 0-dimensional array, otherwise a list with one item per index of the
    leading axis.  The [Arr []] of the scalar case is only met by a storage
    that breaks [wf_tensor]. *)
Fixpoint nest (sh : list nat) (l : list V) : Nested :=
  match sh with
  | [] => match l with
          | v :: _ => Leaf v
          | [] => Arr []
          end
  | n :: rest => Arr (nest rest <$> chunks n (numel rest) l)
  end.

(** [param.detach().cpu().numpy().tolist()] *)
Definition tolist (t : Tensor) : Nested := nest (shape t) (storage t).

(** ** Checkpoints *)

(** A state dict: an insertion-ordered mapping from parameter names to
    tensors.  Keys are pairwise distinct in any real dict; [sd_get] reads
    the first binding of a key. *)
Definition state_dict : Type := list (string * Tensor).

Definition keys (sd : state_dict) : list string := sd.*1.

Fixpoint sd_get (sd : state_dict) (key : string) : option Tensor :=
  match sd with
  | [] => None
  | (k, t) :: rest => if decide (k = key) then Some t else sd_get rest key
  end.

(** [key in data] *)
Definition has_key (sd : state_dict) (key : string) : bool :=
  bool_decide (key ∈ keys sd).

(** The network that [MLPHead] assembles, layer by layer. *)
Inductive Layer :=
| Linear (in_features out_features : nat)
| ReLU
| Dropout (p : Q)
| Sigmoid.

(** The model held by the exporter: a module unpickled whole, of which only
    the parameters are consulted, or an [MLPHead] rebuilt from a state dict
    together with the parameters loaded into it. *)
Inductive Model :=
| Unpickled (params : list (string * Tensor))
| Rebuilt (mlp : list Layer) (params : list (string * Tensor)).

(** [model.named_parameters()] *)
Definition named_parameters (m : Model) : list (string * Tensor) :=
  match m with
  | Unpickled params => params
  | Rebuilt _ params => params
  end.

(** What [torch.load] can hand back: a module (with [repr(type(x))], the
    class name, [repr(x)] and its named parameters), a dict (here always a
    mapping from names to tensors), or something else (with
    [repr(type(x))], the bare type name and [str(x)[:200]]). *)
Inductive pickled :=
| PModule (type_repr cls repr : string) (params : list (string * Tensor))
| PDict (type_repr : string) (sd : state_dict)
| POther (type_repr type_name str_head : string).

Definition type_repr_of (x : pickled) : string :=
  match x with
  | PModule ty _ _ _ | PDict ty _ | POther ty _ _ => ty
  end.

(** One entry of the exported mapping: [{'data': ..., 'shape': ...}]. *)
Record Entry := mkEntry {
  entry_data : Nested;
  entry_shape : list nat
}.

(** What a run lets the outside see. *)
Inductive event :=
| Stdout (line : string)                              (* [print(line)] *)
| Traceback (e : exn)                                 (* [traceback.print_exc()] *)
| JsonDump (path : string) (obj : gmap string Entry). (* [json.dump(obj, f, indent=2)] *)

(** The surroundings of a run.  The checkpoint does not change while a
    script runs, so the two calls of [torch.load] in [get_model] see the
    same content. *)
Record World := mkWorld {
  path_exists : string → bool;                    (* [os.path.exists] *)
  torch_load : string → exn + pickled;            (* [torch.load(path, map_location='cpu')] *)
  load_state_dict :                               (* [model.load_state_dict(sd)]: *)
    list Layer → state_dict → exn + list (string * Tensor);
                                                  (* the parameters afterwards *)
  open_w : string → option exn                    (* [open(path, 'w')] *)
}.

(** A computation: the events so far, and how it ended. *)
Definition io (A : Type) : Type := list event * outcome A.

#[global] Instance io_ret : MRet io := λ A a, ([], Return a).

#[global] Instance io_bind : MBind io := λ A B f m,
  match m with
  | (out, Return a) => let '(out', r) := f a in (out ++ out', r)
  | (out, Raise e) => (out, Raise e)
  | (out, Exit c) => (out, Exit c)
  end.

Definition print (line : string) : io unit := ([Stdout line], Return tt).
Definition raise {A} (e : exn) : io A := ([], Raise e).
Definition sys_exit {A} (code : Z) : io A := ([], Exit code).
Definition emit (ev : event) : io unit := ([ev], Return tt).

(** [try: body  except Exception as e: handler e].  [SystemExit] does not
    derive from [Exception] and passes through. *)
Definition try_except {A} (body : io A) (handler : exn → io A) : io A :=
  match body with
  | (out, Raise e) => let '(out', r) := handler e in (out ++ out', r)
  | _ => body
  end.

(** A call into the world that may raise. *)
Definition call {A} (r : exn + A) : io A :=
  match r with
  | inl e => raise e
  | inr a => mret a
  end.

(** A [for] loop over [l] whose body updates the local state [st]. *)
Fixpoint for_each {A S} (body : S → A → io S) (st : S) (l : list A) : io S :=
  match l with
  | [] => mret st
  | x :: rest => st' ← body st x; for_each body st' rest
  end.

(** [sd[key]] *)
Definition getitem (sd : state_dict) (key : string) : io Tensor :=
  match sd_get sd key with
  | Some t => mret t
  | None => raise (KeyError key)
  end.

(** [t.shape[i]] for [i >= 0] *)
Definition dim (t : Tensor) (i : nat) : io nat :=
  match shape t !! i with
  | Some d => mret d
  | None => raise (IndexError "tuple index out of range")
  end.

(** ** [export_mlp_weights.py] *)

(** The body of the loop of [get_model] over [state_dict.keys()]; the
    state is the pair of locals [(input_size, num_classes)]. *)
Definition infer_step (sd : state_dict) (st : option nat * option nat)
    (key : string) : io (option nat * option nat) :=
  let '(input_size, num_classes) := st in
  num_classes ←
    (if str_in "mlp.6.weight" key || str_in "mlp.6.bias" key then
       if str_in "weight" key then
         t ← getitem sd key; d ← dim t 0; mret (Some d)
       else if str_in "bias" key && bool_decide (num_classes = None) then
         t ← getitem sd key; d ← dim t 0; mret (Some d)
       else mret num_classes
     else mret num_classes);
  input_size ←
    (if str_in "mlp.0.weight" key then
       t ← getitem sd key; d ← dim t 1; mret (Some d)
     else mret input_size);
  mret (input_size, num_classes).

Definition infer_dims (sd : state_dict) : io (option nat * option nat) :=
  for_each (infer_step sd) (None, None) (keys sd).

(** [MLPHead(input_size, num_classes).mlp] *)
Definition MLPHead (input_size num_classes : nat) : list Layer :=
  [ Linear input_size 256;      (* mlp.0 *)
    ReLU;                       (* mlp.1 *)
    Dropout (3 # 10);           (* mlp.2 *)
    Linear 256 128;             (* mlp.3 *)
    ReLU;                       (* mlp.4 *)
    Dropout (3 # 10);           (* mlp.5 *)
    Linear 128 num_classes;     (* mlp.6 *)
    Sigmoid ].                  (* mlp.7 *)

(** The [if]/[elif]/[else] that picks the constructor call.  The tests are
    Python truth tests: [None] and [0] are both false. *)
Definition build (input_size num_classes : option nat) : io (list Layer) :=
  match input_size, num_classes with
  | Some (S _ as i), Some (S _ as n) =>       (* [if input_size and num_classes:] *)
      mret (MLPHead i n)
  | _, Some (S _ as n) =>                     (* [elif num_classes:] *)
      mret (MLPHead 512 n)
  | _, _ =>                                   (* [else:] *)
      raise (ValueError "Could not infer model architecture from state_dict")
  end.

(** The architecture reconstruction of [get_model]: from the initialisation
    of [input_size] down to the [raise ValueError]. *)
Definition reconstruct (sd : state_dict) : io (list Layer) :=
  '(input_size, num_classes) ← infer_dims sd;
  print ("   Inferred input size: " +:+ opt_repr input_size);;
  print ("   Inferred num_classes: " +:+ opt_repr num_classes);;
  build input_size num_classes.

(** [get_model()].  The first [try] either returns the unpickled module
    ([Some]) or falls through to the second ([None]). *)
Definition get_model (w : World) : io Model :=
  let model_path := "composition_classifier.pt" in
  full ← try_except
    (print "Attempting to load full model from file...";;
     model ← call (torch_load w model_path);
     match model with
     | PModule _ _ _ params =>
         print "✓ Successfully loaded full model";;
         mret (Some (Unpickled params))
     | _ => mret None
     end)
    (λ e,
     print ("Could not load as full model: " +:+ exn_str e);;
     print "Trying to load as state_dict...";;
     mret None);
  match full with
  | Some model => mret model
  | None =>
    try_except
      (loaded ← call (torch_load w model_path);
       print (nl +:+ "⚠️  Model was saved as state_dict. Reconstructing architecture...");;
       state_dict ←
         match loaded with
         | PDict _ sd => mret sd
         | PModule _ cls _ _ =>
             raise (AttributeError ("'" +:+ cls +:+ "' object has no attribute 'keys'"))
         | POther _ ty _ =>
             raise (AttributeError ("'" +:+ ty +:+ "' object has no attribute 'keys'"))
         end;
       mlp ← reconstruct state_dict;
       params ← call (load_state_dict w mlp state_dict);
       print "✓ Successfully loaded model from state_dict";;
       mret (Rebuilt mlp params))
      (λ e, raise (RuntimeError ("Could not load model: " +:+ exn_str e)))
  end.

(** The body of the export loop over [model.named_parameters()]; the state
    is the dict [weights].  The parameters are taken to have a dtype that
    numpy holds, so that the conversion to a nested list goes through. *)
Definition export_param (weights : gmap string Entry)
    (np : string * Tensor) : io (gmap string Entry) :=
  let '(name, param) := np in
  if str_in "weight" name || str_in "bias" name then
    let data := tolist param in
    let weights :=
      <[name := {| entry_data := data; entry_shape := shape param |}]> weights in
    print ("  Exported " +:+ name +:+ ": shape " +:+ list_repr (shape param));;
    mret weights
  else mret weights.

(** The dict [weights] that the loop leaves behind. *)
Definition collect_weights (params : list (string * Tensor))
    : io (gmap string Entry) :=
  for_each export_param ∅ params.

(** [export_weights()], the entry point of the exporter.  [model.eval()]
    changes no parameter and prints nothing.  Once the output file is open,
    [json.dump] is taken to write the mapping to the end. *)
Definition export_weights (w : World) : io unit :=
  let model_path := "composition_classifier.pt" in
  (if path_exists w model_path then mret tt
   else
     print ("Error: " +:+ model_path +:+ " not found!");;
     sys_exit 1);;
  print ("Loading model from " +:+ model_path +:+ "...");;
  model ← get_model w;
  weights ← collect_weights (named_parameters model);
  let output_path := "mlp_weights.json" in
  match open_w w output_path with
  | Some e => raise e
  | None => emit (JsonDump output_path weights)
  end;;
  print (nl +:+ "✓ Successfully exported weights to " +:+ output_path);;
  print (nl +:+ "Model architecture:");;
  print "  Input: 512 (CLIP features)";;
  print "  Layer 1: Linear(512 -> 256) + ReLU + Dropout(0.3)";;
  print "  Layer 2: Linear(256 -> 128) + ReLU + Dropout(0.3)";;
  print "  Layer 3: Linear(128 -> 12) + Sigmoid";;
  print (nl +:+ "Next steps:");;
  print ("1. Copy " +:+ output_path +:+ " to your Convex project");;
  print "2. Import it in your TypeScript code";;
  print "3. Implement the forward pass function".

(** ** [inspect_model.py] *)

(** The loop over the conventional head names, left at the first hit. *)
Fixpoint report_head (sd : state_dict) (candidates : list string) : io unit :=
  match candidates with
  | [] => mret tt
  | key :: rest =>
      if has_key sd key then
        t ← getitem sd key;
        num_classes ← dim t 0;
        print (nl +:+ "  Inferred num_classes: " +:+ pretty num_classes
               +:+ " (from " +:+ key +:+ ")")
      else report_head sd rest
  end.

(** The body of the loop that lists the first entries. *)
Definition show_layer (sd : state_dict) (_ : unit) (key : string) : io unit :=
  t ← getitem sd key;
  print ("    - " +:+ key +:+ ": shape " +:+ size_repr (shape t)).

(** [inspect_model(model_path)] *)
Definition inspect_model (w : World) (model_path : string) : io bool :=
  (if path_exists w model_path then mret tt
   else
     print ("Error: " +:+ model_path +:+ " not found!");;
     sys_exit 1);;
  print ("Inspecting " +:+ model_path +:+ "..." +:+ nl);;
  try_except
    (data ← call (torch_load w model_path);
     print ("Type: " +:+ type_repr_of data);;
     match data with
     | PModule _ cls repr _ =>
         print "✓ This is a full model (saved with torch.save(model, ...))";;
         print ("  Model class: " +:+ cls);;
         print ("  Model: " +:+ repr);;
         print (nl +:+ "✓ You can load this directly - no architecture definition needed!");;
         mret true
     | PDict _ data =>
         print "⚠️  This is a state_dict (saved with torch.save(model.state_dict(), ...))";;
         print ("  Number of layers: " +:+ pretty (length data));;
         print (nl +:+ "  Layer names:");;
         for_each (show_layer data) tt (take 10 (keys data));;
         (if bool_decide (10 < length data) then
            print ("    ... and " +:+ pretty (length data - 10) +:+ " more layers")
          else mret tt);;
         (if has_key data "classifier.weight" || has_key data "fc.weight"
             || has_key data "head.weight" then
            report_head data ["classifier.weight"; "fc.weight"; "head.weight"]
          else mret tt);;
         print (nl +:+ "⚠️  You need to define the model architecture to load this.");;
         print "   Update convert_to_onnx.py with your model definition.";;
         mret false
     | POther ty _ str_head =>
         print ("⚠️  Unknown format: " +:+ ty);;
         print ("  Content: " +:+ str_head +:+ "...");;
         mret false
     end)
    (λ e,
     print ("Error loading file: " +:+ exn_str e);;
     emit (Traceback e);;
     mret false).

(** The two programs, as run from the command line. *)
Definition export_main (w : World) : io unit := export_weights w.

Definition inspect_main (w : World) : io bool :=
  let model_path := "composition_classifier.pt" in
  inspect_model w model_path.

(** ** Vocabulary of the specification *)

(** The names that the reconstruction takes for the first linear layer, for
    the last linear layer, and those among the latter that go through the
    [if 'weight' in key] arm. *)
Definition first_layer_key (key : string) : bool :=
  str_in "mlp.0.weight" key.

Definition last_layer_key (key : string) : bool :=
  str_in "mlp.6.weight" key || str_in "mlp.6.bias" key.

Definition weight_branch (key : string) : bool :=
  last_layer_key key && str_in "weight" key.

(** [sd[key].shape[i]], when it exists. *)
Definition dim_of (sd : state_dict) (i : nat) (key : string) : option nat :=
  sd_get sd key ≫= λ t, shape t !! i.

(** Every tensor the loop may index has the dimension asked for: two
    dimensions under a first-layer name, one under a last-layer name. *)
Definition dims_available_on (sd : state_dict) (ks : list string) : Prop :=
  Forall (λ key,
    (first_layer_key key = true → is_Some (dim_of sd 1 key)) ∧
    (last_layer_key key = true → is_Some (dim_of sd 0 key))) ks.

Definition dims_available (sd : state_dict) : Prop :=
  dims_available_on sd (keys sd).

#[global] Instance dims_available_on_dec sd ks : Decision (dims_available_on sd ks).
Proof. unfold dims_available_on. apply _. Defined.

#[global] Instance dims_available_dec sd : Decision (dims_available sd).
Proof. unfold dims_available. apply _. Defined.

(** The second dimension of the tensor under the last first-layer name. *)
Definition input_size_on (sd : state_dict) (ks : list string) : option nat :=
  last (filter (λ k, first_layer_key k = true) ks) ≫= dim_of sd 1.

Definition input_size_of (sd : state_dict) : option nat :=
  input_size_on sd (keys sd).

(** The name whose tensor decides the number of classes: the last one
    through the weight arm, and without any, the first last-layer name. *)
Definition deciding_key (ks : list string) : option string :=
  match last (filter (λ k, weight_branch k = true) ks) with
  | Some k => Some k
  | None => head (filter (λ k, last_layer_key k = true) ks)
  end.

Definition num_classes_of (sd : state_dict) : option nat :=
  deciding_key (keys sd) ≫= dim_of sd 0.

(** Which parameters the exporter keeps. *)
Definition is_exported (name : string) : bool :=
  str_in "weight" name || str_in "bias" name.

Definition entry_of (param : Tensor) : Entry :=
  {| entry_data := tolist param; entry_shape := shape param |}.

(** The numbers of a nested list, left to right. *)
Fixpoint leaves (x : Nested) : list V :=
  match x with
  | Leaf v => [v]
  | Arr items => concat (leaves <$> items)
  end.

(** Modelled from the spec: the reshaping done by the reader of the JSON
    file, which is not part of the repository.  The numbers of ['data'] are
    laid out in row-major order under ['shape'], as
    [numpy.array(data).reshape(shape)] does; the element count has to fit. *)
Definition reshape (data : Nested) (sh : list nat) : option Tensor :=
  let flat := leaves data in
  if decide (length flat = numel sh) then Some (mkTensor sh flat) else None.

(** The first conventional head name that the dict holds. *)
Definition head_key (sd : state_dict) : option string :=
  list_find (λ k, has_key sd k = true)
    ["classifier.weight"; "fc.weight"; "head.weight"] ≫= λ p, Some p.2.

(** The line printed for one entry of a dict. *)
Definition layer_line (kv : string * Tensor) : event :=
  Stdout ("    - " +:+ kv.1 +:+ ": shape " +:+ size_repr (shape kv.2)).

(** The two lines that report what the loop found. *)
Definition inferred_lines (input_size num_classes : option nat)
    : list event :=
  [Stdout ("   Inferred input size: " +:+ opt_repr input_size);
   Stdout ("   Inferred num_classes: " +:+ opt_repr num_classes)].

(** The error of the [else] arm. *)
Definition could_not_infer : exn :=
  ValueError "Could not infer model architecture from state_dict".

(** What one turn of the export loop does to [weights]. *)
Definition keep_param (weights : gmap string Entry) (np : string * Tensor)
    : gmap string Entry :=
  if is_exported np.1 then <[np.1 := entry_of np.2]> weights else weights.

(** The mapping handed to [json.dump]. *)
Definition exported_map (params : list (string * Tensor)) : gmap string Entry :=
  foldl keep_param ∅ params.

(** The lines printed by the export loop. *)
Definition exported_lines (params : list (string * Tensor)) : list event :=
  (λ np, Stdout ("  Exported " +:+ np.1 +:+ ": shape " +:+ list_repr (shape np.2)))
  <$> filter (λ np, is_exported np.1 = true) params.

(** The lines printed after the file is written. *)
Definition closing_lines : list event :=
  [Stdout (nl +:+ "✓ Successfully exported weights to mlp_weights.json");
   Stdout (nl +:+ "Model architecture:");
   Stdout "  Input: 512 (CLIP features)";
   Stdout "  Layer 1: Linear(512 -> 256) + ReLU + Dropout(0.3)";
   Stdout "  Layer 2: Linear(256 -> 128) + ReLU + Dropout(0.3)";
   Stdout "  Layer 3: Linear(128 -> 12) + Sigmoid";
   Stdout (nl +:+ "Next steps:");
   Stdout "1. Copy mlp_weights.json to your Convex project";
   Stdout "2. Import it in your TypeScript code";
   Stdout "3. Implement the forward pass function"].

(** The line that reports the class count read off a conventional head. *)
Definition head_lines (sd : state_dict) : list event :=
  match head_key sd with
  | Some key =>
      match dim_of sd 0 key with
      | Some n =>
          [Stdout (nl +:+ "  Inferred num_classes: " +:+ pretty n
                   +:+ " (from " +:+ key +:+ ")")]
      | None => []
      end
  | None => []
  end.

(** The line announcing a missing checkpoint. *)
Definition missing_line (model_path : string) : event :=
  Stdout ("Error: " +:+ model_path +:+ " not found!").

(** Events that are lines on standard output. *)
Definition is_stdout (ev : event) : bool :=
  match ev with
  | Stdout _ => true
  | _ => false
  end.

(** A computation that does nothing but print, does not leave the process,
    and raises no exception outside of [E]. *)
Definition behaves {A} (E : exn → Prop) (m : io A) : Prop :=
  Forall (λ ev, is_stdout ev = true) m.1 ∧
  match m.2 with
  | Return _ => True
  | Raise e => E e
  | Exit _ => False
  end.

(** The exceptions that [get_model] lets out. *)
Definition load_failure (e : exn) : Prop :=
  ∃ msg, e = RuntimeError ("Could not load model: " +:+ msg).

(** The error of indexing a shape past its end. *)
Definition out_of_range : exn := IndexError "tuple index out of range".

(** A tensor that makes the loop of [get_model] fail: under a first-layer
    name without a second dimension, or under a name of the weight arm
    without a first one. *)
Definition unreadable (sd : state_dict) (key : string) : Prop :=
  (first_layer_key key = true ∧ dim_of sd 1 key = None) ∨
  (weight_branch key = true ∧ dim_of sd 0 key = None).

(** The first lines of the inspector on a dict, up to the heading of the
    list of entries. *)
Definition dict_heading (model_path ty : string) (sd : state_dict) : list event :=
  [Stdout ("Inspecting " +:+ model_path +:+ "..." +:+ nl);
   Stdout ("Type: " +:+ ty);
   Stdout "⚠️  This is a state_dict (saved with torch.save(model.state_dict(), ...))";
   Stdout ("  Number of layers: " +:+ pretty (length sd));
   Stdout (nl +:+ "  Layer names:")].

(** The line that counts the entries left out of the list. *)
Definition more_lines (sd : state_dict) : list event :=
  if decide (10 < length sd)
  then [Stdout ("    ... and " +:+ pretty (length sd - 10) +:+ " more layers")]
  else [].

End Scripts.

Arguments Tensor V : clear implicits.
Arguments Nested V : clear implicits.
Arguments state_dict V : clear implicits.
Arguments Model V : clear implicits.
Arguments pickled V : clear implicits.
Arguments Entry V : clear implicits.
Arguments event V : clear implicits.
Arguments World V : clear implicits.
Arguments io V A : clear implicits.

(** ** Sample checkpoints *)

Module Samples.

(** A tensor of the given shape filled with [0, 1, 2, ...]. *)
Definition arange (sh : list nat) : Tensor nat :=
  mkTensor sh (seq 0 (numel sh)).

(** First layer of width zero, last layer with twelve outputs. *)
Definition sd_zero_width : state_dict nat :=
  [("mlp.0.weight", arange [256; 0]); ("mlp.6.bias", arange [12])].

(** Only a last layer, and it has no outputs. *)
Definition sd_zero_classes : state_dict nat :=
  [("mlp.6.weight", arange [0; 128])].

(** Only a last layer, with three outputs, weight after bias. *)
Definition sd_last_only : state_dict nat :=
  [("mlp.6.bias", arange [3]); ("mlp.6.weight", arange [3; 4])].

(** First and last layer, widths five and three. *)
Definition sd_small : state_dict nat :=
  [("mlp.0.weight", arange [2; 5]); ("mlp.0.bias", arange [2]);
   ("mlp.6.weight", arange [3; 4]); ("mlp.6.bias", arange [3])].


(** Only a first layer. *)
Definition sd_first_only : state_dict nat :=
  [("mlp.0.weight", arange [2; 5]); ("mlp.0.bias", arange [2])].

(** No name of the perceptron at all. *)
Definition sd_foreign : state_dict nat :=
  [("encoder.weight", arange [2; 2]); ("encoder.bias", arange [2])].

(** A last layer, and a bias whose prefix happens to contain the word
    weight. *)
Definition sd_weighted_prefix : state_dict nat :=
  [("mlp.6.weight", arange [3; 4]); ("weighted.mlp.6.bias", arange [7])].

(** Parameters of an unpickled module. *)
Definition params_small : list (string * Tensor nat) :=
  [("fc.weight", arange [2; 3]); ("fc.bias", arange [2]);
   ("embed.table", arange [2; 2]); ("logit_scale", arange [])].

(** Twelve entries and a conventional head. *)
Definition sd_twelve : state_dict nat :=
  ((λ i, ("layer" +:+ pretty i +:+ ".weight", arange [i; 2])) <$> seq 0 11)
  ++ [("fc.weight", arange [4; 2])].

(** The names and shapes of the parameters of a [Sequential] held under
    the attribute [mlp], counting layers from [j]. *)
Fixpoint expected_params (j : nat) (mlp : list Layer) : list (string * list nat) :=
  match mlp with
  | [] => []
  | Linear i o :: rest =>
      ("mlp." +:+ pretty j +:+ ".weight", [o; i])
      :: ("mlp." +:+ pretty j +:+ ".bias", [o])
      :: expected_params (S j) rest
  | _ :: rest => expected_params (S j) rest
  end.

(** A strict [load_state_dict]: the names have to be the expected ones and
    the shapes have to agree. *)
Definition strict_load (mlp : list Layer) (sd : state_dict nat)
    : exn + list (string * Tensor nat) :=
  let want := expected_params 0 mlp in
  if bool_decide (Forall (λ ks, shape <$> sd_get sd ks.1 = Some ks.2) want
                  ∧ keys sd ⊆ want.*1)
  then inr ((λ ks, (ks.1, default (arange []) (sd_get sd ks.1))) <$> want)
  else inl (RuntimeError "Error(s) in loading state_dict for MLPHead").

(** A world where the checkpoint is [present] or not and holds [content]. *)
Definition world_of (present : bool) (content : exn + pickled nat) : World nat :=
  {| path_exists := λ _, present;
     torch_load := λ _, content;
     load_state_dict := strict_load;
     open_w := λ _, None |}.

(** The checkpoint is missing. *)
Definition world_missing : World nat :=
  world_of false (inl (OtherError "No such file or directory")).

(** The checkpoint holds a whole module with [params_small]. *)
Definition world_module : World nat :=
  world_of true (inr (PModule "<class 'net.Net'>" "Net" "Net()" params_small)).

(** The checkpoint holds the dict [sd_twelve]. *)
Definition world_twelve : World nat :=
  world_of true (inr (PDict "<class 'collections.OrderedDict'>" sd_twelve)).

(** A tensor of the given shape filled with zeros. *)
Definition zeros (sh : list nat) : Tensor nat :=
  mkTensor sh (replicate (numel sh) 0).

(** A complete state dict of [MLPHead(2, 1)]. *)
Definition sd_full : state_dict nat :=
  [("mlp.0.weight", zeros [256; 2]); ("mlp.0.bias", zeros [256]);
   ("mlp.3.weight", zeros [128; 256]); ("mlp.3.bias", zeros [128]);
   ("mlp.6.weight", zeros [1; 128]); ("mlp.6.bias", zeros [1])].

(** A first layer whose weight is a vector. *)
Definition sd_flat_first : state_dict nat :=
  [("mlp.0.bias", arange [2]); ("mlp.0.weight", arange [4]);
   ("mlp.6.weight", arange [3; 4])].

(** Nothing but a first layer whose weight is a vector. *)
Definition sd_vector_first : state_dict nat :=
  [("mlp.0.weight", arange [4])].

(** Two heads that only kept their biases. *)
Definition sd_bias_only : state_dict nat :=
  [("a.mlp.6.bias", arange [3]); ("b.mlp.6.bias", arange [5])].

(** A conventional head that is a scalar. *)
Definition sd_scalar_head : state_dict nat :=
  [("body.weight", arange [2; 2]); ("fc.weight", arange [])].

(** Parameters none of which is a weight or a bias. *)
Definition params_plain : list (string * Tensor nat) :=
  [("embed.table", arange [2; 2]); ("logit_scale", arange [])].

(** The checkpoint is there but cannot be unpickled. *)
Definition world_corrupt : World nat :=
  world_of true (inl (OtherError "invalid load key")).

(** The checkpoint holds the dict [sd_full]. *)
Definition world_full : World nat :=
  world_of true (inr (PDict "<class 'collections.OrderedDict'>" sd_full)).

(** The checkpoint holds the dict [sd_small], which lacks the middle layer. *)
Definition world_small : World nat :=
  world_of true (inr (PDict "<class 'collections.OrderedDict'>" sd_small)).

(** The checkpoint holds the dict [sd_flat_first]. *)
Definition world_flat_first : World nat :=
  world_of true (inr (PDict "<class 'collections.OrderedDict'>" sd_flat_first)).

(** The checkpoint holds the dict [sd_vector_first]. *)
Definition world_vector_first : World nat :=
  world_of true (inr (PDict "<class 'collections.OrderedDict'>" sd_vector_first)).

(** The checkpoint holds the dict [sd_scalar_head]. *)
Definition world_scalar_head : World nat :=
  world_of true (inr (PDict "<class 'dict'>" sd_scalar_head)).

(** The checkpoint holds a list. *)
Definition world_list : World nat :=
  world_of true (inr (POther "<class 'list'>" "list" "[1, 2, 3]")).

(** The checkpoint holds a module without weights or biases. *)
Definition world_plain : World nat :=
  world_of true (inr (PModule "<class 'net.Net'>" "Net" "Net()" params_plain)).

(** As [world_module], but the output file cannot be opened. *)
Definition world_read_only : World nat :=
  {| path_exists := λ _, true;
     torch_load := λ _, inr (PModule "<class 'net.Net'>" "Net" "Net()" params_small);
     load_state_dict := strict_load;
     open_w := λ _, Some (OtherError "[Errno 13] Permission denied: 'mlp_weights.json'") |}.

End Samples.

(** * Properties *)

(** ** Substrings *)

Lemma app_String (c : ascii) (a t : string) :
  String c a +:+ t = String c (a +:+ t).
Proof. reflexivity. Qed.

Lemma app_Empty (t : string) : EmptyString +:+ t = t.
Proof. reflexivity. Qed.

Lemma prefix_app_iff (a s : string) :
  String.prefix a s = true ↔ ∃ t, s = a +:+ t.
Proof.
  revert s. induction a as [|c a IH]; intros s.
  - destruct s; simpl; split; eauto.
  - destruct s as [|d s]; simpl.
    + split; [done | intros [t Ht]; discriminate].
    + destruct (ascii_dec c d) as [->|Hne].
      * rewrite IH. split; intros [t Ht]; exists t;
          rewrite app_String in *; congruence.
      * split; [done | intros [t Ht]; rewrite app_String in Ht; congruence].
Qed.

Lemma str_in_iff (sub s : string) :
  str_in sub s = true ↔ ∃ pre post, s = pre +:+ sub +:+ post.
Proof.
  induction s as [|c s IH]; cbn [str_in].
  - rewrite orb_false_r, prefix_app_iff. split.
    + intros [t Ht]. by exists EmptyString, t.
    + intros [[|d pre] [post Ht]]; [by exists post | discriminate].
  - rewrite orb_true_iff, prefix_app_iff, IH. split.
    + intros [[t Ht]|(pre & post & Ht)].
      * by exists EmptyString, t.
      * exists (String c pre), post. by rewrite app_String, Ht.
    + intros [[|d pre] [post Ht]].
      * left. by exists post.
      * right. exists pre, post. rewrite app_String in Ht. congruence.
Qed.

Lemma string_app_assoc (a b c : string) : (a +:+ b) +:+ c = a +:+ b +:+ c.
Proof.
  induction a as [|x a IH]; [done|]. by rewrite !app_String, IH.
Qed.

(** A name that contains [a +:+ b] contains [b]. *)
Lemma str_in_app_r (a b s : string) :
  str_in (a +:+ b) s = true → str_in b s = true.
Proof.
  rewrite !str_in_iff. intros (pre & post & ->).
  exists (pre +:+ a), post. by rewrite !string_app_assoc.
Qed.

Lemma last_weight_is_weight (key : string) :
  str_in "mlp.6.weight" key = true → str_in "weight" key = true.
Proof. apply (str_in_app_r "mlp.6." "weight"). Qed.

Lemma last_bias_is_bias (key : string) :
  str_in "mlp.6.bias" key = true → str_in "bias" key = true.
Proof. apply (str_in_app_r "mlp.6." "bias"). Qed.

(** The weight arm takes every name with [mlp.6.weight], and of the names
    with [mlp.6.bias] those that have [weight] somewhere. *)
Lemma weight_branch_iff (key : string) :
  weight_branch key = true ↔
  str_in "mlp.6.weight" key = true ∨
  (str_in "mlp.6.bias" key = true ∧ str_in "weight" key = true).
Proof.
  unfold weight_branch, last_layer_key.
  rewrite andb_true_iff, orb_true_iff. split.
  - intros [[?|?] ?]; auto.
  - intros [H|[? ?]]; auto using last_weight_is_weight.
Qed.

Section Proofs.

Context {V : Type}.
Implicit Types (sd : state_dict V) (t : Tensor V) (w : World V).

(** ** The monad *)

Lemma bind_return {A B} (out : list (event V)) (a : A) (f : A → io V B) :
  (out, Return a) ≫= f = (out ++ (f a).1, (f a).2).
Proof. unfold mbind, io_bind. by destruct (f a). Qed.

Lemma bind_raise {A B} (out : list (event V)) (e : exn) (f : A → io V B) :
  (out, Raise e) ≫= f = (out, Raise e).
Proof. done. Qed.

Lemma io_eta {A} (m : io V A) : m = (m.1, m.2).
Proof. by destruct m. Qed.

(** ** Inferring the two dimensions *)

Lemma read_dim sd key i d :
  dim_of sd i key = Some d →
  (getitem sd key ≫= λ t, dim t i ≫= λ d, mret (Some d))
  = (([], Return (Some d)) : io V (option nat)).
Proof.
  unfold dim_of, getitem, dim. destruct (sd_get sd key) as [t|]; [|done].
  simpl. intros ->. done.
Qed.

Lemma infer_step_ok sd input_size num_classes key :
  (first_layer_key key = true → is_Some (dim_of sd 1 key)) →
  (last_layer_key key = true → is_Some (dim_of sd 0 key)) →
  infer_step sd (input_size, num_classes) key =
  ([], Return
     (if first_layer_key key then dim_of sd 1 key else input_size,
      if weight_branch key then dim_of sd 0 key
      else if last_layer_key key then
        match num_classes with
        | Some _ => num_classes
        | None => dim_of sd 0 key
        end
      else num_classes)).
Proof.
  intros H1 H0. unfold infer_step, weight_branch.
  fold (last_layer_key key). fold (first_layer_key key).
  assert (first_layer_key key = true →
          (getitem sd key ≫= λ t, dim t 1 ≫= λ d, mret (Some d))
          = (([], Return (dim_of sd 1 key)) : io V (option nat))) as R1.
  { intros E. destruct (H1 E) as [d Hd]. by rewrite (read_dim _ _ _ _ Hd), Hd. }
  assert (last_layer_key key = true →
          (getitem sd key ≫= λ t, dim t 0 ≫= λ d, mret (Some d))
          = (([], Return (dim_of sd 0 key)) : io V (option nat))) as R0.
  { intros E. destruct (H0 E) as [d Hd]. by rewrite (read_dim _ _ _ _ Hd), Hd. }
  assert (last_layer_key key = true → str_in "weight" key = false →
          str_in "bias" key = true) as Hb.
  { intros E Hw. unfold last_layer_key in E. apply orb_true_iff in E.
    destruct E as [E|E]; [|by apply last_bias_is_bias].
    apply last_weight_is_weight in E. congruence. }
  destruct (last_layer_key key) eqn:EL; simpl.
  - destruct (str_in "weight" key) eqn:EW.
    + rewrite (R0 eq_refl).
      destruct (first_layer_key key) eqn:EF; [|done].
      rewrite bind_return. simpl. by rewrite (R1 eq_refl).
    + rewrite (Hb eq_refl eq_refl). destruct num_classes as [n|]; simpl.
      * destruct (first_layer_key key) eqn:EF; [|done].
        by rewrite (R1 eq_refl).
      * rewrite (R0 eq_refl).
        destruct (first_layer_key key) eqn:EF; [|done].
        rewrite bind_return. simpl. by rewrite (R1 eq_refl).
  - destruct (first_layer_key key) eqn:EF; [|done].
    by rewrite (R1 eq_refl).
Qed.

Lemma for_each_infer sd ks input_size num_classes :
  dims_available_on sd ks →
  for_each (infer_step sd) (input_size, num_classes) ks =
  ([], Return
     (match last (filter (λ k, first_layer_key k = true) ks) with
      | Some k => dim_of sd 1 k
      | None => input_size
      end,
      match last (filter (λ k, weight_branch k = true) ks) with
      | Some k => dim_of sd 0 k
      | None =>
          match num_classes with
          | Some _ => num_classes
          | None => head (filter (λ k, last_layer_key k = true) ks) ≫= dim_of sd 0
          end
      end)).
Proof.
  intros Hks. revert input_size num_classes.
  induction Hks as [|key ks [H1 H0] _ IH]; intros input_size num_classes.
  { simpl. by destruct num_classes. }
  cbn [for_each]. rewrite (infer_step_ok _ _ _ _ H1 H0), bind_return, IH.
  cbn [fst snd app]. f_equal. f_equal.
  set (lastF := last (filter (λ k, first_layer_key k = true) ks)).
  set (lastW := last (filter (λ k, weight_branch k = true) ks)).
  assert (weight_branch key = true → last_layer_key key = true) as HWL.
  { unfold weight_branch. by intros [? _]%andb_true_iff. }
  rewrite !filter_cons. f_equal.
  - destruct (decide (first_layer_key key = true)) as [E|E].
    + rewrite E, last_cons. fold lastF. by destruct lastF.
    + apply not_true_is_false in E. rewrite E. reflexivity.
  - destruct (decide (weight_branch key = true)) as [EW|EW].
    + rewrite EW, last_cons. fold lastW. destruct lastW; [done|].
      by destruct (H0 (HWL EW)) as [d ->].
    + apply not_true_is_false in EW. rewrite EW.
      fold lastW. destruct lastW; [done|].
      destruct (decide (last_layer_key key = true)) as [EL|EL].
      * rewrite EL. destruct num_classes; [done|]. simpl.
        by destruct (H0 EL) as [d ->].
      * apply not_true_is_false in EL. rewrite EL. reflexivity.
Qed.

(** Without a missing dimension in the way, the loop ends with the values
    that the vocabulary names. *)
Lemma infer_dims_ok sd :
  dims_available sd →
  infer_dims sd = ([], Return (input_size_of sd, num_classes_of sd)).
Proof.
  intros H. unfold infer_dims. rewrite (for_each_infer _ _ _ _ H).
  unfold input_size_of, input_size_on, num_classes_of, deciding_key.
  do 3 f_equal; by destruct (last _).
Qed.

Lemma build_silent input_size num_classes :
  (build (V:=V) input_size num_classes).1 = [].
Proof. by destruct input_size as [[|?]|], num_classes as [[|?]|]. Qed.

Lemma reconstruct_after_loop sd out input_size num_classes :
  infer_dims sd = (out, Return (input_size, num_classes)) →
  reconstruct sd =
  (out ++ inferred_lines input_size num_classes,
   (build (V:=V) input_size num_classes).2).
Proof.
  intros H. unfold reconstruct. rewrite H. simpl.
  pose proof (build_silent input_size num_classes) as Hb.
  destruct (build input_size num_classes) as [l o]. simpl in *. by subst l.
Qed.

Lemma reconstruct_ok sd :
  dims_available sd →
  reconstruct sd =
  (inferred_lines (input_size_of sd) (num_classes_of sd),
   (build (V:=V) (input_size_of sd) (num_classes_of sd)).2).
Proof.
  intros H. by rewrite (reconstruct_after_loop _ _ _ _ (infer_dims_ok _ H)).
Qed.

(** A name of the right kind in the dict gives the selection something to
    select. *)
Lemma last_filter_is_Some (P : string → bool) (ks : list string) :
  (∃ k, k ∈ ks ∧ P k = true) →
  ∃ k, last (filter (λ k, P k = true) ks) = Some k ∧ k ∈ ks ∧ P k = true.
Proof.
  intros (k & Hk & HP).
  destruct (last (filter (λ k, P k = true) ks)) as [k'|] eqn:E.
  - exists k'. split; [done|].
    apply last_Some_elem_of in E. by apply list_elem_of_filter in E as [? ?].
  - apply last_None in E.
    assert (k ∈ filter (λ k, P k = true) ks) as Hin
      by by apply list_elem_of_filter.
    rewrite E in Hin. by apply elem_of_nil in Hin.
Qed.

Lemma filter_none (P : string → bool) (ks : list string) :
  (∀ k, k ∈ ks → P k = false) → filter (λ k, P k = true) ks = [].
Proof.
  intros H. induction ks as [|k ks IH]; [done|].
  rewrite filter_cons. destruct (decide (P k = true)) as [E|E].
  - rewrite H in E by apply list_elem_of_here. done.
  - apply IH. intros k' Hk'. apply H. by apply list_elem_of_further.
Qed.

Lemma dims_available_lookup sd key :
  dims_available sd → key ∈ keys sd →
  (first_layer_key key = true → is_Some (dim_of sd 1 key)) ∧
  (last_layer_key key = true → is_Some (dim_of sd 0 key)).
Proof.
  unfold dims_available, dims_available_on. rewrite Forall_forall. eauto.
Qed.

Lemma input_size_is_Some sd :
  dims_available sd →
  (∃ k, k ∈ keys sd ∧ first_layer_key k = true) →
  is_Some (input_size_of sd).
Proof.
  intros Hd Hk. apply (last_filter_is_Some first_layer_key) in Hk
    as (k & E & Hin & HF).
  unfold input_size_of, input_size_on. rewrite E. simpl.
  by apply (dims_available_lookup _ _ Hd Hin).
Qed.

Lemma input_size_is_None sd :
  (∀ k, k ∈ keys sd → first_layer_key k = false) → input_size_of sd = None.
Proof.
  intros H. unfold input_size_of, input_size_on.
  by rewrite (filter_none first_layer_key _ H).
Qed.

Lemma deciding_key_is_Some (ks : list string) :
  (∃ k, k ∈ ks ∧ last_layer_key k = true) →
  ∃ k, deciding_key ks = Some k ∧ k ∈ ks ∧ last_layer_key k = true.
Proof.
  intros Hk. unfold deciding_key.
  destruct (last (filter (λ k, weight_branch k = true) ks)) as [k|] eqn:E.
  - exists k. split; [done|]. apply last_Some_elem_of in E.
    apply list_elem_of_filter in E as [HW ?]. split; [done|].
    unfold weight_branch in HW. by apply andb_true_iff in HW as [? _].
  - destruct Hk as (k & Hin & HL).
    destruct (filter (λ k, last_layer_key k = true) ks) as [|k' l] eqn:EL.
    + assert (k ∈ filter (λ k, last_layer_key k = true) ks) as Hk
        by by apply list_elem_of_filter.
      rewrite EL in Hk. by apply elem_of_nil in Hk.
    + exists k'. split; [done|].
      assert (k' ∈ filter (λ k, last_layer_key k = true) ks) as Hk'
        by (rewrite EL; apply list_elem_of_here).
      by apply list_elem_of_filter in Hk' as [? ?].
Qed.

Lemma num_classes_is_Some sd :
  dims_available sd →
  (∃ k, k ∈ keys sd ∧ last_layer_key k = true) →
  is_Some (num_classes_of sd).
Proof.
  intros Hd Hk. apply deciding_key_is_Some in Hk as (k & E & Hin & HL).
  unfold num_classes_of. rewrite E. simpl.
  by apply (dims_available_lookup _ _ Hd Hin).
Qed.

Lemma num_classes_is_None sd :
  (∀ k, k ∈ keys sd → last_layer_key k = false) → num_classes_of sd = None.
Proof.
  intros H. unfold num_classes_of, deciding_key.
  rewrite (filter_none last_layer_key _ H).
  rewrite (filter_none weight_branch); [done|].
  intros k Hk. unfold weight_branch. by rewrite (H k Hk).
Qed.

Lemma no_key_dims_available sd :
  (∀ k, k ∈ keys sd → first_layer_key k = false) →
  (∀ k, k ∈ keys sd → last_layer_key k = false) →
  dims_available sd.
Proof.
  intros HF HL. apply Forall_forall. intros k Hk.
  rewrite (HF k Hk), (HL k Hk). done.
Qed.

(** ** [get_model] on a checkpoint that holds a dict *)

Lemma get_model_reconstruct_raises w ty sd out e :
  torch_load w "composition_classifier.pt" = inr (PDict ty sd) →
  reconstruct sd = (out, Raise e) →
  (get_model w).2 = Raise (RuntimeError ("Could not load model: " +:+ exn_str e)).
Proof.
  intros Hload Hrec. unfold get_model. cbn zeta. rewrite Hload. simpl.
  by rewrite Hrec.
Qed.

Lemma get_model_could_not_infer w ty sd out :
  torch_load w "composition_classifier.pt" = inr (PDict ty sd) →
  reconstruct sd = (out, Raise could_not_infer) →
  (get_model w).2 =
  Raise (RuntimeError
    "Could not load model: Could not infer model architecture from state_dict").
Proof. intros Hload Hrec. by rewrite (get_model_reconstruct_raises _ _ _ _ _ Hload Hrec). Qed.

(** X5.  When the reconstruction succeeds and [load_state_dict] accepts
    the state dict, [get_model] returns the rebuilt perceptron with the
    loaded parameters, after the lines of the reconstruction and the line
    of success. *)
Lemma get_model_rebuilds w ty sd out mlp params :
  torch_load w "composition_classifier.pt" = inr (PDict ty sd) →
  reconstruct sd = (out, Return mlp) →
  load_state_dict w mlp sd = inr params →
  get_model w =
  (Stdout "Attempting to load full model from file..."
   :: Stdout (nl +:+ "⚠️  Model was saved as state_dict. Reconstructing architecture...")
   :: out ++ [Stdout "✓ Successfully loaded model from state_dict"],
   Return (Rebuilt mlp params)).
Proof.
  intros Hload Hrec Hparams. unfold get_model. cbn zeta. rewrite Hload. simpl.
  rewrite Hrec. simpl. rewrite Hparams. reflexivity.
Qed.

(** ** The reconstructed architecture *)

(** C1 (as amended).  When the state dict has a name containing
    [mlp.0.weight] and a name containing [mlp.6.weight] or [mlp.6.bias],
    every tensor under such names has the dimension that is read, and
    neither of the two dimensions found is zero, the reconstruction returns
    the perceptron whose input size is [shape[1]] of the tensor under the
    last name containing [mlp.0.weight] and whose number of classes is
    [shape[0]] of the tensor under the deciding last-layer name. *)
Theorem reconstruct_both_inferred sd :
  (∃ k, k ∈ keys sd ∧ first_layer_key k = true) →
  (∃ k, k ∈ keys sd ∧ last_layer_key k = true) →
  dims_available sd →
  input_size_of sd ≠ Some 0 →
  num_classes_of sd ≠ Some 0 →
  ∃ i n,
    input_size_of sd = Some i ∧ num_classes_of sd = Some n ∧
    reconstruct sd = (inferred_lines (Some i) (Some n), Return (MLPHead i n)).
Proof.
  intros HF HL Hd Hi Hn.
  destruct (input_size_is_Some _ Hd HF) as [i Ei].
  destruct (num_classes_is_Some _ Hd HL) as [n En].
  exists i, n. split; [done|]. split; [done|].
  rewrite (reconstruct_ok _ Hd), Ei, En.
  destruct i as [|i]; [congruence|]. destruct n as [|n]; [congruence|]. done.
Qed.


(** C5 (as amended).  When no name contains [mlp.0.weight], some name
    contains [mlp.6.weight] or [mlp.6.bias], every tensor under such a name
    has a first dimension, and the number of classes found is not zero, the
    reconstruction returns the perceptron with input size 512. *)
Theorem reconstruct_default_input_size sd :
  (∀ k, k ∈ keys sd → first_layer_key k = false) →
  (∃ k, k ∈ keys sd ∧ last_layer_key k = true) →
  dims_available sd →
  num_classes_of sd ≠ Some 0 →
  ∃ n,
    num_classes_of sd = Some n ∧
    reconstruct sd = (inferred_lines None (Some n), Return (MLPHead 512 n)).
Proof.
  intros HF HL Hd Hn.
  destruct (num_classes_is_Some _ Hd HL) as [n En].
  exists n. split; [done|].
  rewrite (reconstruct_ok _ Hd), (input_size_is_None _ HF), En.
  destruct n as [|n]; [congruence|]. done.
Qed.

(** C6.  When no name contains [mlp.0.weight] and none contains
    [mlp.6.weight] or [mlp.6.bias], the reconstruction raises the error
    that the architecture could not be inferred, and [get_model] passes it
    on instead of returning a model. *)
Theorem reconstruct_nothing_inferred sd :
  (∀ k, k ∈ keys sd → first_layer_key k = false) →
  (∀ k, k ∈ keys sd → last_layer_key k = false) →
  reconstruct sd =
    (inferred_lines None None,
     Raise (ValueError "Could not infer model architecture from state_dict")) ∧
  ∀ w ty,
    torch_load w "composition_classifier.pt" = inr (PDict ty sd) →
    (get_model w).2 =
    Raise (RuntimeError
      "Could not load model: Could not infer model architecture from state_dict").
Proof.
  intros HF HL.
  assert (reconstruct sd = (inferred_lines None None, Raise could_not_infer)) as H.
  { rewrite (reconstruct_ok _ (no_key_dims_available _ HF HL)).
    by rewrite (input_size_is_None _ HF), (num_classes_is_None _ HL). }
  split; [done|]. intros w ty Hload.
  by apply (get_model_could_not_infer _ _ _ _ Hload H).
Qed.

(** C9 (as amended).  When the input size is found (some name contains
    [mlp.0.weight] and every tensor under such a name has a second
    dimension) but no name
    contains [mlp.6.weight] or [mlp.6.bias], the reconstruction still
    raises the error that the architecture could not be inferred; the input
    size found is printed and then dropped. *)
Theorem reconstruct_input_size_alone sd :
  (∃ k, k ∈ keys sd ∧ first_layer_key k = true) →
  (∀ k, k ∈ keys sd → last_layer_key k = false) →
  dims_available sd →
  ∃ i,
    input_size_of sd = Some i ∧
    reconstruct sd =
      (inferred_lines (Some i) None,
       Raise (ValueError "Could not infer model architecture from state_dict")) ∧
    ∀ w ty,
      torch_load w "composition_classifier.pt" = inr (PDict ty sd) →
      (get_model w).2 =
      Raise (RuntimeError
        "Could not load model: Could not infer model architecture from state_dict").
Proof.
  intros HF HL Hd.
  destruct (input_size_is_Some _ Hd HF) as [i Ei]. exists i.
  assert (reconstruct sd = (inferred_lines (Some i) None, Raise could_not_infer)) as H.
  { rewrite (reconstruct_ok _ Hd), Ei, (num_classes_is_None _ HL).
    by destruct i. }
  split; [done|]. split; [done|]. intros w ty Hload.
  by apply (get_model_could_not_infer _ _ _ _ Hload H).
Qed.

(** What the loop computes when both kinds of last-layer name are there:
    [shape[0]] of the tensor under the last name, in iteration order, that
    passes the test [if 'weight' in key]. *)
Lemma num_classes_from_weight_arm sd :
  (∃ k, k ∈ keys sd ∧ str_in "mlp.6.weight" k = true) →
  (∃ k, k ∈ keys sd ∧ str_in "mlp.6.bias" k = true) →
  dims_available sd →
  ∃ k t n,
    last (filter (λ k, weight_branch k = true) (keys sd)) = Some k ∧
    (str_in "mlp.6.weight" k = true ∨
     (str_in "mlp.6.bias" k = true ∧ str_in "weight" k = true)) ∧
    sd_get sd k = Some t ∧ shape t !! 0 = Some n ∧
    infer_dims sd = ([], Return (input_size_of sd, Some n)).
Proof.
  intros (kw & Hin & Hkw) _ Hd.
  destruct (last_filter_is_Some weight_branch (keys sd)) as (k & E & Hk & HW).
  { exists kw. split; [done|]. apply weight_branch_iff. by left. }
  assert (last_layer_key k = true) as HL.
  { unfold weight_branch in HW. by apply andb_true_iff in HW as [? _]. }
  destruct (dims_available_lookup _ _ Hd Hk) as [_ H0].
  destruct (H0 HL) as [n Hn]. unfold dim_of in Hn.
  destruct (sd_get sd k) as [t|] eqn:Et; [|done]. simpl in Hn.
  exists k, t, n. split; [done|]. split; [by apply weight_branch_iff|].
  split; [done|]. split; [done|].
  rewrite (infer_dims_ok _ Hd). do 3 f_equal.
  unfold num_classes_of, deciding_key. rewrite E. simpl.
  unfold dim_of. by rewrite Et.
Qed.

(** ** The exported mapping *)

Lemma export_param_eq weights name (param : Tensor V) :
  export_param weights (name, param) =
  (exported_lines [(name, param)], Return (keep_param weights (name, param))).
Proof.
  unfold export_param, keep_param, exported_lines, is_exported.
  rewrite filter_cons. cbn [fst snd].
  destruct (str_in "weight" name || str_in "bias" name); done.
Qed.

Lemma exported_lines_cons np (params : list (string * Tensor V)) :
  exported_lines (np :: params) = exported_lines [np] ++ exported_lines params.
Proof.
  unfold exported_lines. rewrite !filter_cons.
  destruct (decide (is_exported np.1 = true)); done.
Qed.

Lemma for_each_export (params : list (string * Tensor V)) weights :
  for_each export_param weights params =
  (exported_lines params, Return (foldl keep_param weights params)).
Proof.
  revert weights. induction params as [|[name param] params IH]; intros weights.
  { done. }
  cbn [for_each foldl].
  rewrite (exported_lines_cons (name, param) params).
  rewrite export_param_eq, bind_return, IH. reflexivity.
Qed.

Lemma collect_weights_eq (params : list (string * Tensor V)) :
  collect_weights params = (exported_lines params, Return (exported_map params)).
Proof. apply for_each_export. Qed.

(** A name that no parameter carries keeps its binding. *)
Lemma foldl_keep_other (params : list (string * Tensor V)) weights name :
  name ∉ params.*1 → foldl keep_param weights params !! name = weights !! name.
Proof.
  revert weights. induction params as [|[k q] params IH]; intros weights Hn.
  { done. }
  apply not_elem_of_cons in Hn as [Hne Hn]. simpl. rewrite IH by done.
  unfold keep_param. simpl. destruct (is_exported k); [|done].
  by rewrite lookup_insert_ne.
Qed.

(** Every binding was there before or was put there by the loop. *)
Lemma foldl_keep_origin (params : list (string * Tensor V)) weights name e :
  foldl keep_param weights params !! name = Some e →
  weights !! name = Some e ∨
  ∃ param, (name, param) ∈ params ∧ is_exported name = true ∧ e = entry_of param.
Proof.
  revert weights. induction params as [|[k q] params IH]; intros weights H.
  { by left. }
  simpl in H. apply IH in H as [H|(param & Hin & Hex & ->)].
  - unfold keep_param in H. simpl in H. destruct (is_exported k) eqn:E; [|by left].
    destruct (decide (k = name)) as [->|Hne].
    + rewrite lookup_insert_eq in H. injection H as <-.
      right. exists q. split; [apply list_elem_of_here | done].
    + rewrite lookup_insert_ne in H by done. by left.
  - right. exists param. split; [by apply list_elem_of_further | done].
Qed.

Lemma foldl_keep_lookup (params : list (string * Tensor V)) weights name param :
  NoDup params.*1 → (name, param) ∈ params → is_exported name = true →
  foldl keep_param weights params !! name = Some (entry_of param).
Proof.
  revert weights. induction params as [|[k q] params IH]; intros weights Hnd Hin Hex.
  { by apply elem_of_nil in Hin. }
  apply NoDup_cons in Hnd as [Hk Hnd]. apply elem_of_cons in Hin as [[= -> ->]|Hin].
  - simpl. rewrite foldl_keep_other by done.
    unfold keep_param. simpl. rewrite Hex. apply lookup_insert_eq.
  - simpl. by apply IH.
Qed.

Lemma foldl_keep_size (params : list (string * Tensor V)) weights :
  NoDup params.*1 → (∀ name, name ∈ params.*1 → weights !! name = None) →
  size (foldl keep_param weights params) =
  size weights + length (filter (λ np, is_exported np.1 = true) params).
Proof.
  revert weights. induction params as [|[k q] params IH]; intros weights Hnd Hfresh.
  { simpl. lia. }
  apply NoDup_cons in Hnd as [Hk Hnd]. simpl. rewrite filter_cons. simpl.
  assert (weights !! k = None) as Hw by (apply Hfresh; apply list_elem_of_here).
  rewrite IH; [|done|].
  - unfold keep_param. simpl. destruct (is_exported k) eqn:E.
    + rewrite decide_True by done. rewrite map_size_insert_None by done.
      simpl. lia.
    + rewrite decide_False by done. done.
  - intros name Hname. unfold keep_param. simpl.
    assert (weights !! name = None) as Hw'
      by (apply Hfresh; by apply list_elem_of_further).
    destruct (is_exported k); [|done].
    rewrite lookup_insert_ne; [done|]. intros ->. done.
Qed.

(** The whole run of the exporter once [get_model] has returned. *)
Lemma export_weights_run w out model :
  path_exists w "composition_classifier.pt" = true →
  get_model w = (out, Return model) →
  open_w w "mlp_weights.json" = None →
  export_weights w =
  (Stdout "Loading model from composition_classifier.pt..." :: out
   ++ exported_lines (named_parameters model)
   ++ JsonDump "mlp_weights.json" (exported_map (named_parameters model))
      :: closing_lines,
   Return tt).
Proof.
  intros Hex Hget Hopen. unfold export_weights. cbn zeta.
  rewrite Hex, Hget, Hopen. simpl. rewrite collect_weights_eq. reflexivity.
Qed.

(** C2.  Once the exporter holds a model, the mapping it dumps to
    [mlp_weights.json] has, under the full name of every named parameter
    whose name contains [weight] or [bias], an entry whose shape field is
    the list of the dimensions of that parameter (and whose data field is
    its nested list); it has no other key, and as many entries as there are
    such parameters. *)
Theorem export_one_entry_per_parameter w out model :
  path_exists w "composition_classifier.pt" = true →
  get_model w = (out, Return model) →
  open_w w "mlp_weights.json" = None →
  NoDup (named_parameters model).*1 →
  ∃ weights,
    export_weights w =
      (Stdout "Loading model from composition_classifier.pt..." :: out
       ++ exported_lines (named_parameters model)
       ++ JsonDump "mlp_weights.json" weights :: closing_lines,
       Return tt) ∧
    (∀ name param,
       (name, param) ∈ named_parameters model →
       str_in "weight" name || str_in "bias" name = true →
       weights !! name =
       Some {| entry_data := tolist param; entry_shape := shape param |}) ∧
    (∀ name,
       is_Some (weights !! name) →
       str_in "weight" name || str_in "bias" name = true ∧
       name ∈ (named_parameters model).*1) ∧
    size weights =
    length (filter (λ np, str_in "weight" np.1 || str_in "bias" np.1 = true)
              (named_parameters model)).
Proof.
  intros Hex Hget Hopen Hnd. exists (exported_map (named_parameters model)).
  split; [by apply export_weights_run|]. unfold exported_map. split; [|split].
  - intros name param Hin Hkeep. by apply foldl_keep_lookup.
  - intros name [e He]. apply foldl_keep_origin in He as [He|(param & Hin & Hk & _)].
    + by rewrite lookup_empty in He.
    + split; [done|]. apply list_elem_of_fmap. by exists (name, param).
  - rewrite foldl_keep_size; [by rewrite map_size_empty | done |].
    intros name _. apply lookup_empty.
Qed.

(** ** Reading the nested list back *)

Lemma chunks_concat n k (l : list V) :
  length l = n * k → concat (chunks n k l) = l.
Proof.
  revert l. induction n as [|n IH]; intros l Hl; simpl in *.
  - by destruct l.
  - rewrite IH; [apply take_drop|]. rewrite length_drop. lia.
Qed.

Lemma chunks_length n k (l : list V) :
  length l = n * k → Forall (λ c, length c = k) (chunks n k l).
Proof.
  revert l. induction n as [|n IH]; intros l Hl; simpl in *.
  - constructor.
  - constructor.
    + rewrite length_take. lia.
    + apply IH. rewrite length_drop. lia.
Qed.

Lemma leaves_nest sh (l : list V) :
  length l = numel sh → leaves (nest sh l) = l.
Proof.
  revert l. induction sh as [|n sh IH]; intros l Hl; simpl in *.
  - destruct l as [|v [|? ?]]; done.
  - rewrite <- list_fmap_compose.
    rewrite (Forall_fmap_ext_1 (leaves ∘ nest sh) id).
    + rewrite list_fmap_id. by apply chunks_concat.
    + eapply Forall_impl; [by apply chunks_length|].
      intros c Hc. simpl. by apply IH.
Qed.

(** The nested list of a tensor, reshaped under its shape, is the tensor. *)
Lemma reshape_tolist t :
  wf_tensor t → reshape (tolist t) (shape t) = Some t.
Proof.
  intros Hwf. unfold reshape, tolist. rewrite (leaves_nest _ _ Hwf).
  rewrite decide_True by done. by destruct t.
Qed.

(** C3.  Once the exporter holds a model, every parameter whose name
    contains [weight] or [bias] has an entry under its name in the mapping
    that is dumped, and reshaping that entry's data under that entry's
    shape gives back exactly the parameter; and every entry of the mapping
    comes from a parameter in this way. *)
Theorem export_round_trip w out model :
  path_exists w "composition_classifier.pt" = true →
  get_model w = (out, Return model) →
  open_w w "mlp_weights.json" = None →
  NoDup (named_parameters model).*1 →
  Forall (λ np, wf_tensor np.2) (named_parameters model) →
  ∃ weights,
    JsonDump "mlp_weights.json" weights ∈ (export_weights w).1 ∧
    (∀ name param,
       (name, param) ∈ named_parameters model →
       str_in "weight" name || str_in "bias" name = true →
       ∃ e,
         weights !! name = Some e ∧
         entry_shape e = shape param ∧
         reshape (entry_data e) (entry_shape e) = Some param) ∧
    (∀ name e,
       weights !! name = Some e →
       ∃ param,
         (name, param) ∈ named_parameters model ∧
         reshape (entry_data e) (entry_shape e) = Some param).
Proof.
  intros Hex Hget Hopen Hnd Hwf. exists (exported_map (named_parameters model)).
  rewrite Forall_forall in Hwf. split; [|split].
  - rewrite (export_weights_run _ _ _ Hex Hget Hopen). cbn [fst].
    apply list_elem_of_further, elem_of_app. right.
    apply elem_of_app. right. apply list_elem_of_here.
  - intros name param Hin Hkeep. exists (entry_of param).
    split; [by apply foldl_keep_lookup|]. split; [done|].
    apply reshape_tolist. by apply (Hwf (name, param)).
  - intros name e He. apply foldl_keep_origin in He as [He|(param & Hin & _ & ->)].
    + by rewrite lookup_empty in He.
    + exists param. split; [done|]. apply reshape_tolist.
      by apply (Hwf (name, param)).
Qed.

(** ** A missing checkpoint *)

Lemma inspect_model_missing w model_path :
  path_exists w model_path = false →
  inspect_model w model_path = ([missing_line model_path], Exit 1).
Proof. intros H. unfold inspect_model. by rewrite H. Qed.

(** C7.  When the checkpoint does not exist, each of the two programs
    prints the line that reports the missing file, prints nothing before
    or after it, and leaves with status 1. *)
Theorem missing_checkpoint_exits w :
  path_exists w "composition_classifier.pt" = false →
  export_main w =
    ([Stdout "Error: composition_classifier.pt not found!"], Exit 1) ∧
  inspect_main w =
    ([Stdout "Error: composition_classifier.pt not found!"], Exit 1).
Proof.
  intros H. split.
  - unfold export_main, export_weights. cbn zeta. by rewrite H.
  - unfold inspect_main. cbn zeta. by rewrite inspect_model_missing.
Qed.

(** ** Inspecting a dict *)

Lemma sd_get_is_Some sd key : key ∈ keys sd → is_Some (sd_get sd key).
Proof.
  induction sd as [|[k t] sd IH]; simpl; intros Hin.
  - by apply elem_of_nil in Hin.
  - destruct (decide (k = key)); [by eexists|].
    apply IH. by apply elem_of_cons in Hin as [?|?].
Qed.

Lemma sd_get_elem_of sd key t :
  NoDup (keys sd) → (key, t) ∈ sd → sd_get sd key = Some t.
Proof.
  induction sd as [|[k t'] sd IH]; simpl; intros Hnd Hin.
  - by apply elem_of_nil in Hin.
  - apply NoDup_cons in Hnd as [Hk Hnd].
    apply elem_of_cons in Hin as [[= -> ->]|Hin].
    + by rewrite decide_True.
    + rewrite decide_False; [by apply IH|]. intros ->. apply Hk.
      apply list_elem_of_fmap. by exists (key, t).
Qed.

Lemma show_layer_eq sd key t :
  sd_get sd key = Some t →
  show_layer sd () key = ([layer_line (key, t)], Return ()).
Proof. intros H. unfold show_layer, getitem. by rewrite H. Qed.

Lemma for_each_show sd (l : list (string * Tensor V)) :
  (∀ kv, kv ∈ l → sd_get sd kv.1 = Some kv.2) →
  for_each (show_layer sd) () l.*1 = (layer_line <$> l, Return ()).
Proof.
  induction l as [|[k t] l IH]; intros Hl; [done|].
  assert (sd_get sd k = Some t) as Hk by apply (Hl (k, t)), list_elem_of_here.
  cbn [fmap list_fmap for_each fst].
  rewrite (show_layer_eq _ _ _ Hk), bind_return.
  rewrite IH; [done|]. intros kv Hkv. apply Hl. by apply list_elem_of_further.
Qed.

Lemma report_head_hit sd key rest n :
  has_key sd key = true → dim_of sd 0 key = Some n →
  report_head sd (key :: rest) =
  ([Stdout (nl +:+ "  Inferred num_classes: " +:+ pretty n
            +:+ " (from " +:+ key +:+ ")")], Return ()).
Proof.
  intros Hk Hn. cbn [report_head]. rewrite Hk. unfold getitem, dim.
  unfold dim_of in Hn. destruct (sd_get sd key) as [t|]; [|done].
  simpl in *. by rewrite Hn.
Qed.

Lemma report_head_miss sd key rest :
  has_key sd key = false → report_head sd (key :: rest) = report_head sd rest.
Proof. intros Hk. cbn [report_head]. by rewrite Hk. Qed.

Lemma report_head_eq sd :
  (∀ key, head_key sd = Some key → is_Some (dim_of sd 0 key)) →
  (if has_key sd "classifier.weight" || has_key sd "fc.weight"
      || has_key sd "head.weight"
   then report_head sd ["classifier.weight"; "fc.weight"; "head.weight"]
   else mret ())
  = (head_lines sd, Return ()).
Proof.
  unfold head_lines, head_key. cbn [list_find].
  intros Hdim.
  destruct (has_key sd "classifier.weight") eqn:E1.
  { rewrite decide_True in * by done. simpl in Hdim.
    destruct (Hdim _ eq_refl) as [n Hn].
    cbn [orb mbind option_bind fmap option_fmap option_map prod_map snd id].
    rewrite Hn. by apply report_head_hit. }
  rewrite decide_False in * by done.
  rewrite (report_head_miss _ _ _ E1).
  destruct (has_key sd "fc.weight") eqn:E2.
  { rewrite decide_True in * by done. simpl in Hdim.
    destruct (Hdim _ eq_refl) as [n Hn].
    cbn [orb mbind option_bind fmap option_fmap option_map prod_map snd id].
    rewrite Hn. by apply report_head_hit. }
  rewrite decide_False in * by done.
  rewrite (report_head_miss _ _ _ E2).
  destruct (has_key sd "head.weight") eqn:E3.
  { rewrite decide_True in * by done. simpl in Hdim.
    destruct (Hdim _ eq_refl) as [n Hn].
    cbn [orb mbind option_bind fmap option_fmap option_map prod_map snd id].
    rewrite Hn. by apply report_head_hit. }
  rewrite decide_False in * by done. done.
Qed.

(** Neither loop of the dict branch leaves the process. *)
Lemma for_each_show_stays sd ks c :
  (for_each (show_layer sd) () ks).2 ≠ Exit c.
Proof.
  induction ks as [|k ks IH]; [done|]. cbn [for_each].
  destruct (sd_get sd k) as [t|] eqn:E.
  - rewrite (show_layer_eq _ _ _ E), bind_return. exact IH.
  - assert (show_layer sd () k = ([], Raise (KeyError k))) as ->.
    { unfold show_layer, getitem. by rewrite E. }
    done.
Qed.

Lemma report_head_stays sd candidates c :
  (report_head sd candidates).2 ≠ Exit c.
Proof.
  induction candidates as [|k ks IH]; [done|]. cbn [report_head].
  destruct (has_key sd k); [|done]. unfold getitem, dim.
  destruct (sd_get sd k) as [t|]; [|done]. simpl.
  by destruct (shape t !! 0).
Qed.

(** On a dict the inspector returns [False] whatever the tensors look
    like: an exception raised on the way is caught and reported. *)
Lemma inspect_dict_returns_false w model_path ty sd :
  path_exists w model_path = true →
  torch_load w model_path = inr (PDict ty sd) →
  (inspect_model w model_path).2 = Return false.
Proof.
  intros Hex Hload. unfold inspect_model. rewrite Hex, Hload.
  with_strategy opaque [for_each report_head has_key] simpl.
  pose proof (for_each_show_stays sd (take 10 (keys sd))) as H1.
  destruct (for_each (show_layer sd) () (take 10 (keys sd))) as [o1 [[]|e1|c1]];
    [|done|by destruct (H1 c1)].
  pose proof (report_head_stays sd
                ["classifier.weight"; "fc.weight"; "head.weight"]) as H2.
  destruct (has_key sd "classifier.weight" || has_key sd "fc.weight"
            || has_key sd "head.weight").
  - destruct (report_head sd _) as [o2 [[]|e2|c2]];
      [| |by destruct (H2 c2)]; by destruct (bool_decide (10 < length sd)).
  - by destruct (bool_decide (10 < length sd)).
Qed.

(** C8.  On a checkpoint that holds a dict, the inspector prints the
    number of entries, then one line with name and shape for each of the
    first ten entries and for no other, then the number of remaining
    entries when there are more than ten, then, when one of
    [classifier.weight], [fc.weight], [head.weight] is a key, the first
    dimension of the tensor under the first of them that is; and it
    returns [False]. *)
Theorem inspect_state_dict w model_path ty sd :
  path_exists w model_path = true →
  torch_load w model_path = inr (PDict ty sd) →
  NoDup (keys sd) →
  (∀ key, head_key sd = Some key → is_Some (dim_of sd 0 key)) →
  inspect_model w model_path =
  ([Stdout ("Inspecting " +:+ model_path +:+ "..." +:+ nl);
    Stdout ("Type: " +:+ ty);
    Stdout "⚠️  This is a state_dict (saved with torch.save(model.state_dict(), ...))";
    Stdout ("  Number of layers: " +:+ pretty (length sd));
    Stdout (nl +:+ "  Layer names:")]
   ++ (layer_line <$> take 10 sd)
   ++ (if decide (10 < length sd)
       then [Stdout ("    ... and " +:+ pretty (length sd - 10) +:+ " more layers")]
       else [])
   ++ head_lines sd
   ++ [Stdout (nl +:+ "⚠️  You need to define the model architecture to load this.");
       Stdout "   Update convert_to_onnx.py with your model definition."],
   Return false).
Proof.
  intros Hex Hload Hnd Hdim. unfold inspect_model.
  assert (for_each (show_layer sd) () (take 10 (keys sd))
          = (layer_line <$> take 10 sd, Return ())) as HL.
  { unfold keys. rewrite <- fmap_take. apply for_each_show.
    intros [k t] Hkv. apply sd_get_elem_of; [done|].
    by apply (subseteq_take 10 sd). }
  rewrite Hex, Hload.
  with_strategy opaque [for_each report_head has_key] simpl.
  rewrite HL, (report_head_eq _ Hdim). simpl.
  destruct (decide (10 < length sd)) as [Hlen|Hlen].
  - rewrite bool_decide_eq_true_2 by done. reflexivity.
  - rewrite bool_decide_eq_false_2 by done. reflexivity.
Qed.

End Proofs.

(** * The theorems at the sample checkpoints *)

Ltac by_decide := apply (bool_decide_unpack _); vm_compute; exact I.

Ltac has_name k := exists k; split; [by_decide | reflexivity].

Lemma reconstruct_both_inferred_witness :
  ∃ i n,
    input_size_of Samples.sd_small = Some i ∧
    num_classes_of Samples.sd_small = Some n ∧
    reconstruct Samples.sd_small =
    (inferred_lines (Some i) (Some n), Return (MLPHead i n)).
Proof.
  apply (reconstruct_both_inferred Samples.sd_small).
  - has_name "mlp.0.weight".
  - has_name "mlp.6.weight".
  - by_decide.
  - vm_compute. discriminate.
  - vm_compute. discriminate.
Defined.

(** C1, as stated, fails where the first layer has width zero: the names
    are there and [shape[1]] is 0, yet the model is built with input size
    512. *)
Lemma reconstruct_zero_width_counterexample :
  (∃ k, k ∈ keys Samples.sd_zero_width ∧ first_layer_key k = true) ∧
  (∃ k, k ∈ keys Samples.sd_zero_width ∧ last_layer_key k = true) ∧
  input_size_of Samples.sd_zero_width = Some 0 ∧
  num_classes_of Samples.sd_zero_width = Some 12 ∧
  reconstruct Samples.sd_zero_width =
    (inferred_lines (Some 0) (Some 12), Return (MLPHead 512 12)) ∧
  ¬ ∃ out, reconstruct Samples.sd_zero_width = (out, Return (MLPHead 0 12)).
Proof.
  split; [has_name "mlp.0.weight"|]. split; [has_name "mlp.6.bias"|].
  split; [reflexivity|]. split; [reflexivity|]. split; [reflexivity|].
  intros [out H]. vm_compute in H. discriminate.
Qed.


Lemma reconstruct_default_input_size_witness :
  ∃ n,
    num_classes_of Samples.sd_last_only = Some n ∧
    reconstruct Samples.sd_last_only =
    (inferred_lines None (Some n), Return (MLPHead 512 n)).
Proof.
  apply (reconstruct_default_input_size Samples.sd_last_only).
  - apply Forall_forall. by_decide.
  - has_name "mlp.6.bias".
  - by_decide.
  - vm_compute. discriminate.
Defined.

(** C5, as stated, fails where the last layer has no outputs: the class
    count 0 is read and printed, and the reconstruction raises instead of
    building a model with input size 512. *)
Lemma reconstruct_zero_classes_counterexample :
  (∀ k, k ∈ keys Samples.sd_zero_classes → first_layer_key k = false) ∧
  (∃ k, k ∈ keys Samples.sd_zero_classes ∧ last_layer_key k = true) ∧
  num_classes_of Samples.sd_zero_classes = Some 0 ∧
  reconstruct Samples.sd_zero_classes =
    (inferred_lines None (Some 0),
     Raise (ValueError "Could not infer model architecture from state_dict")).
Proof.
  split; [apply Forall_forall; by_decide|].
  split; [has_name "mlp.6.weight"|]. split; reflexivity.
Qed.

Lemma reconstruct_nothing_inferred_witness :
  reconstruct Samples.sd_foreign =
    (inferred_lines None None,
     Raise (ValueError "Could not infer model architecture from state_dict")) ∧
  ∀ w ty,
    torch_load w "composition_classifier.pt" = inr (PDict ty Samples.sd_foreign) →
    (get_model w).2 =
    Raise (RuntimeError
      "Could not load model: Could not infer model architecture from state_dict").
Proof.
  apply (reconstruct_nothing_inferred Samples.sd_foreign).
  - apply Forall_forall. by_decide.
  - apply Forall_forall. by_decide.
Defined.

Lemma reconstruct_input_size_alone_witness :
  ∃ i,
    input_size_of Samples.sd_first_only = Some i ∧
    reconstruct Samples.sd_first_only =
      (inferred_lines (Some i) None,
       Raise (ValueError "Could not infer model architecture from state_dict")) ∧
    ∀ w ty,
      torch_load w "composition_classifier.pt"
      = inr (PDict ty Samples.sd_first_only) →
      (get_model w).2 =
      Raise (RuntimeError
        "Could not load model: Could not infer model architecture from state_dict").
Proof.
  apply (reconstruct_input_size_alone Samples.sd_first_only).
  - has_name "mlp.0.weight".
  - apply Forall_forall. by_decide.
  - by_decide.
Defined.

(** C9, as stated, fails where the weight of the first layer is a vector:
    a name containing [mlp.0.weight] is there and no last-layer name is,
    yet reading [shape[1]] raises [IndexError] inside the loop, so the
    error that comes out is not the one of the architecture that could not
    be inferred, and no input size was found. *)
Lemma reconstruct_vector_first_counterexample :
  (∃ k, k ∈ keys Samples.sd_vector_first ∧ first_layer_key k = true) ∧
  (∀ k, k ∈ keys Samples.sd_vector_first → last_layer_key k = false) ∧
  reconstruct Samples.sd_vector_first =
    ([], Raise (IndexError "tuple index out of range")) ∧
  (reconstruct Samples.sd_vector_first).2 ≠
    Raise (ValueError "Could not infer model architecture from state_dict") ∧
  (get_model Samples.world_vector_first).2 =
    Raise (RuntimeError "Could not load model: tuple index out of range").
Proof.
  split; [has_name "mlp.0.weight"|].
  split; [apply Forall_forall; by_decide|].
  split; [reflexivity|]. split; [discriminate | reflexivity].
Qed.

(** C10.  The loop at a state dict where the claim and the code part.
    Both kinds of name are there and the only tensor under a name with
    [mlp.6.weight] has first dimension 3.  The name [weighted.mlp.6.bias]
    is a bias, yet it passes [if 'weight' in key], so it overwrites without
    the test [num_classes is None] of the bias arm: the loop ends with 7,
    the length of that bias, where the claim has the 3 of the weight. *)
Lemma num_classes_weighted_prefix_counterexample :
  (∃ k, k ∈ keys Samples.sd_weighted_prefix ∧ str_in "mlp.6.weight" k = true) ∧
  (∃ k, k ∈ keys Samples.sd_weighted_prefix ∧ str_in "mlp.6.bias" k = true) ∧
  (∀ k, k ∈ keys Samples.sd_weighted_prefix →
        str_in "mlp.6.weight" k = true →
        dim_of Samples.sd_weighted_prefix 0 k = Some 3) ∧
  infer_dims Samples.sd_weighted_prefix = ([], Return (None, Some 7)).
Proof.
  split; [has_name "mlp.6.weight"|].
  split; [has_name "weighted.mlp.6.bias"|].
  split; [|reflexivity].
  apply (Forall_forall (λ k, str_in "mlp.6.weight" k = true →
                             dim_of Samples.sd_weighted_prefix 0 k = Some 3)).
  by_decide.
Qed.

Lemma export_one_entry_per_parameter_witness :
  ∃ weights,
    JsonDump "mlp_weights.json" weights ∈ (export_weights Samples.world_module).1 ∧
    (export_weights Samples.world_module).2 = Return () ∧
    size weights = 2 ∧
    weights !! "fc.weight" =
      Some {| entry_data := Arr [Arr [Leaf 0; Leaf 1; Leaf 2];
                                 Arr [Leaf 3; Leaf 4; Leaf 5]];
              entry_shape := [2; 3] |} ∧
    weights !! "fc.bias" =
      Some {| entry_data := Arr [Leaf 0; Leaf 1]; entry_shape := [2] |} ∧
    weights !! "embed.table" = None ∧
    weights !! "logit_scale" = None.
Proof.
  destruct (export_one_entry_per_parameter Samples.world_module
              [Stdout "Attempting to load full model from file...";
               Stdout "✓ Successfully loaded full model"]
              (Unpickled Samples.params_small))
    as (weights & Hrun & Hin & Hdom & Hsize).
  - reflexivity.
  - reflexivity.
  - reflexivity.
  - by_decide.
  - exists weights. rewrite Hrun. split; [|split; [reflexivity|]].
    { cbn [fst]. do 3 apply list_elem_of_further.
      apply elem_of_app. right. apply list_elem_of_here. }
    split; [exact Hsize|].
    split.
    { apply (Hin "fc.weight" (Samples.arange [2; 3])); [|reflexivity].
      apply list_elem_of_here. }
    split.
    { apply (Hin "fc.bias" (Samples.arange [2])); [|reflexivity].
      apply list_elem_of_further, list_elem_of_here. }
    split.
    + destruct (weights !! "embed.table") eqn:E; [|reflexivity].
      destruct (Hdom "embed.table") as [H _]; [by eexists | discriminate H].
    + destruct (weights !! "logit_scale") eqn:E; [|reflexivity].
      destruct (Hdom "logit_scale") as [H _]; [by eexists | discriminate H].
Defined.

Lemma export_round_trip_witness :
  ∃ weights,
    JsonDump "mlp_weights.json" weights ∈ (export_weights Samples.world_module).1 ∧
    (∀ name param,
       (name, param) ∈ Samples.params_small →
       str_in "weight" name || str_in "bias" name = true →
       ∃ e,
         weights !! name = Some e ∧
         entry_shape e = shape param ∧
         reshape (entry_data e) (entry_shape e) = Some param) ∧
    (∀ name e,
       weights !! name = Some e →
       ∃ param,
         (name, param) ∈ Samples.params_small ∧
         reshape (entry_data e) (entry_shape e) = Some param).
Proof.
  apply (export_round_trip Samples.world_module
           [Stdout "Attempting to load full model from file...";
            Stdout "✓ Successfully loaded full model"]
           (Unpickled Samples.params_small)).
  - reflexivity.
  - reflexivity.
  - reflexivity.
  - by_decide.
  - repeat (constructor; [vm_compute; reflexivity|]). constructor.
Defined.

Lemma missing_checkpoint_exits_witness :
  export_main Samples.world_missing =
    ([Stdout "Error: composition_classifier.pt not found!"], Exit 1) ∧
  inspect_main Samples.world_missing =
    ([Stdout "Error: composition_classifier.pt not found!"], Exit 1).
Proof. apply (missing_checkpoint_exits Samples.world_missing). reflexivity. Defined.

Lemma inspect_state_dict_witness :
  inspect_model Samples.world_twelve "composition_classifier.pt" =
  ([Stdout ("Inspecting composition_classifier.pt..." +:+ nl);
    Stdout "Type: <class 'collections.OrderedDict'>";
    Stdout "⚠️  This is a state_dict (saved with torch.save(model.state_dict(), ...))";
    Stdout "  Number of layers: 12";
    Stdout (nl +:+ "  Layer names:");
    Stdout "    - layer0.weight: shape torch.Size([0, 2])";
    Stdout "    - layer1.weight: shape torch.Size([1, 2])";
    Stdout "    - layer2.weight: shape torch.Size([2, 2])";
    Stdout "    - layer3.weight: shape torch.Size([3, 2])";
    Stdout "    - layer4.weight: shape torch.Size([4, 2])";
    Stdout "    - layer5.weight: shape torch.Size([5, 2])";
    Stdout "    - layer6.weight: shape torch.Size([6, 2])";
    Stdout "    - layer7.weight: shape torch.Size([7, 2])";
    Stdout "    - layer8.weight: shape torch.Size([8, 2])";
    Stdout "    - layer9.weight: shape torch.Size([9, 2])";
    Stdout "    ... and 2 more layers";
    Stdout (nl +:+ "  Inferred num_classes: 4 (from fc.weight)");
    Stdout (nl +:+ "⚠️  You need to define the model architecture to load this.");
    Stdout "   Update convert_to_onnx.py with your model definition."],
   Return false).
Proof.
  rewrite (inspect_state_dict Samples.world_twelve "composition_classifier.pt"
             "<class 'collections.OrderedDict'>" Samples.sd_twelve).
  - reflexivity.
  - reflexivity.
  - reflexivity.
  - by_decide.
  - intros key H. vm_compute in H. injection H as <-. by eexists.
Defined.

(** * Further properties of the two scripts *)

Section MoreProofs.

Context {V : Type}.
Implicit Types (sd : state_dict V) (t : Tensor V) (w : World V).

(** ** Computations that only print *)

Lemma behaves_ret {A} (E : exn → Prop) (a : A) :
  behaves (V:=V) E (mret a).
Proof. split; [constructor | done]. Qed.

Lemma behaves_print (E : exn → Prop) line : behaves (V:=V) E (print line).
Proof. split; [by repeat constructor | done]. Qed.

Lemma behaves_raise {A} (E : exn → Prop) e :
  E e → behaves (V:=V) (A:=A) E (raise e).
Proof. split; [constructor | done]. Qed.

Lemma behaves_call {A} (E : exn → Prop) (r : exn + A) :
  (∀ e, r = inl e → E e) → behaves (V:=V) E (call r).
Proof.
  intros H. destruct r as [e|a]; [apply behaves_raise; auto | apply behaves_ret].
Qed.

Lemma behaves_bind {A B} (E : exn → Prop) (m : io V A) (f : A → io V B) :
  behaves E m → (∀ a, behaves E (f a)) → behaves E (m ≫= f).
Proof.
  intros [Hm1 Hm2] Hf. destruct m as [out [a|e|c]]; simpl in *; [|done|done].
  destruct (Hf a) as [H1 H2]. unfold mbind, io_bind.
  destruct (f a) as [out' r]. simpl in *. split; [|done].
  apply Forall_app. by split.
Qed.

Lemma behaves_try_except {A} (E' E : exn → Prop) (body : io V A) handler :
  behaves E' body → (∀ e, E' e → behaves E (handler e)) →
  behaves E (try_except body handler).
Proof.
  intros [Hb1 Hb2] Hh. destruct body as [out [a|e|c]]; simpl in *; [done| |done].
  destruct (Hh e Hb2) as [H1 H2]. destruct (handler e) as [out' r].
  simpl in *. split; [|done]. apply Forall_app. by split.
Qed.

Lemma behaves_for_each {A S} (E : exn → Prop) (body : S → A → io V S) st l :
  (∀ st x, behaves E (body st x)) → behaves E (for_each body st l).
Proof.
  intros Hbody. revert st. induction l as [|x l IH]; intros st.
  - apply behaves_ret.
  - cbn [for_each]. apply behaves_bind; [apply Hbody | apply IH].
Qed.

Lemma behaves_getitem sd key : behaves (λ _, True) (getitem sd key).
Proof.
  unfold getitem. destruct (sd_get sd key);
    [apply behaves_ret | by apply behaves_raise].
Qed.

Lemma behaves_dim t i : behaves (V:=V) (λ _, True) (dim t i).
Proof.
  unfold dim. destruct (shape t !! i);
    [apply behaves_ret | by apply behaves_raise].
Qed.

Lemma behaves_read sd key i :
  behaves (λ _, True)
    (getitem sd key ≫= λ t, dim t i ≫= λ d, mret (Some d)).
Proof.
  apply behaves_bind; [apply behaves_getitem|]. intros t.
  apply behaves_bind; [apply behaves_dim|]. intros d. apply behaves_ret.
Qed.

Lemma behaves_infer_step sd st key :
  behaves (λ _, True) (infer_step sd st key).
Proof.
  destruct st as [input_size num_classes]. unfold infer_step.
  apply behaves_bind.
  - repeat case_match; first [apply behaves_read | apply behaves_ret].
  - intros n. apply behaves_bind; [|intros i; apply behaves_ret].
    case_match; first [apply behaves_read | apply behaves_ret].
Qed.

Lemma behaves_reconstruct sd : behaves (λ _, True) (reconstruct sd).
Proof.
  unfold reconstruct. apply behaves_bind.
  - apply behaves_for_each. intros. apply behaves_infer_step.
  - intros [i n]. apply behaves_bind; [apply behaves_print|]. intros _.
    apply behaves_bind; [apply behaves_print|]. intros _.
    unfold build. repeat case_match;
      first [apply behaves_ret | by apply behaves_raise].
Qed.

(** [get_model] only prints, stays in the process, and lets out nothing
    but its own [RuntimeError]. *)
Lemma get_model_behaves w : behaves load_failure (get_model w).
Proof.
  unfold get_model. cbn zeta. apply behaves_bind.
  - apply (behaves_try_except (λ _, True)).
    + apply behaves_bind; [apply behaves_print|]. intros _.
      apply behaves_bind; [by apply behaves_call|]. intros model.
      destruct model; try apply behaves_ret.
      apply behaves_bind; [apply behaves_print|]. intros _. apply behaves_ret.
    + intros e _. apply behaves_bind; [apply behaves_print|]. intros _.
      apply behaves_bind; [apply behaves_print|]. intros _. apply behaves_ret.
  - intros [model|]; [apply behaves_ret|].
    apply (behaves_try_except (λ _, True)).
    + apply behaves_bind; [by apply behaves_call|]. intros loaded.
      apply behaves_bind; [apply behaves_print|]. intros _.
      apply behaves_bind.
      { destruct loaded; first [apply behaves_ret | by apply behaves_raise]. }
      intros state_dict.
      apply (behaves_bind _ (reconstruct state_dict));
        [apply behaves_reconstruct|].
      intros mlp. apply behaves_bind; [by apply behaves_call|]. intros params.
      apply behaves_bind; [apply behaves_print|]. intros _. apply behaves_ret.
    + intros e _. apply behaves_raise. by eexists.
Qed.

(** ** What [get_model] returns and raises *)

(** X1.  [get_model] returns a module unpickled whole exactly when
    [torch.load] hands back a module; it then prints its two lines, keeps
    the parameters of that module and does not reconstruct anything. *)
Theorem get_model_unpickled_iff w params :
  (∃ ty cls repr,
     torch_load w "composition_classifier.pt" = inr (PModule ty cls repr params))
  ↔ get_model w =
    ([Stdout "Attempting to load full model from file...";
      Stdout "✓ Successfully loaded full model"],
     Return (Unpickled params)).
Proof.
  split.
  - intros (ty & cls & repr & Hload). unfold get_model. cbn zeta.
    by rewrite Hload.
  - unfold get_model. cbn zeta.
    destruct (torch_load w "composition_classifier.pt")
      as [e|[ty cls repr params'|ty sd|ty tn sh]]; simpl.
    + discriminate.
    + intros [= <-]. by eexists _, _, _.
    + destruct (reconstruct sd) as [o [mlp|e|c]]; simpl; [|discriminate..].
      destruct (load_state_dict w mlp sd); discriminate.
    + discriminate.
Qed.

(** X2.  When [torch.load] raises, both attempts fail: [get_model] reports
    the first failure on standard output and raises a [RuntimeError] that
    carries the message of the second. *)
Theorem get_model_load_raises w e :
  torch_load w "composition_classifier.pt" = inl e →
  get_model w =
  ([Stdout "Attempting to load full model from file...";
    Stdout ("Could not load as full model: " +:+ exn_str e);
    Stdout "Trying to load as state_dict..."],
   Raise (RuntimeError ("Could not load model: " +:+ exn_str e))).
Proof. intros Hload. unfold get_model. cbn zeta. by rewrite Hload. Qed.

(** X3.  Whatever the checkpoint holds, [get_model] either returns a model
    or raises a [RuntimeError] whose message starts with
    [Could not load model: ]; it never leaves the process and lets no
    other exception out. *)
Theorem get_model_errors_wrapped w :
  (∃ model, (get_model w).2 = Return model) ∨
  (∃ msg,
     (get_model w).2 = Raise (RuntimeError ("Could not load model: " +:+ msg))).
Proof.
  destruct (get_model_behaves w) as [_ H].
  destruct (get_model w).2 as [model|e|c]; [left; by eexists| |done].
  destruct H as [msg ->]. right. by eexists.
Qed.

(** X4.  Everything [get_model] lets the outside see is a line on standard
    output: it writes no file and prints no traceback. *)
Theorem get_model_prints_only w ev :
  ev ∈ (get_model w).1 → ∃ line, ev = Stdout line.
Proof.
  destruct (get_model_behaves w) as [H _]. rewrite Forall_forall in H.
  intros Hev. specialize (H ev Hev). destruct ev; try discriminate.
  by eexists.
Qed.

(** X6.  When the architecture is reconstructed but [load_state_dict]
    rejects the state dict, [get_model] raises a [RuntimeError] with the
    message of that rejection, after the lines of the reconstruction, and
    does not print the line of success. *)
Theorem get_model_load_rejected w ty sd out mlp e :
  torch_load w "composition_classifier.pt" = inr (PDict ty sd) →
  reconstruct sd = (out, Return mlp) →
  load_state_dict w mlp sd = inl e →
  get_model w =
  (Stdout "Attempting to load full model from file..."
   :: Stdout (nl +:+ "⚠️  Model was saved as state_dict. Reconstructing architecture...")
   :: out,
   Raise (RuntimeError ("Could not load model: " +:+ exn_str e))).
Proof.
  intros Hload Hrec Hrej. unfold get_model. cbn zeta. rewrite Hload. simpl.
  rewrite Hrec. simpl. rewrite Hrej. simpl. rewrite ?app_nil_r. reflexivity.
Qed.

(** ** Edges of the reconstruction *)

Lemma infer_step_on_key sd st key t :
  sd_get sd key = Some t →
  infer_step sd st key = ([], Raise out_of_range) ∨
  ∃ st', infer_step sd st key = ([], Return st').
Proof.
  intros Hget. destruct st as [input_size num_classes].
  unfold infer_step, getitem. rewrite Hget.
  destruct (str_in "mlp.6.weight" key), (str_in "mlp.6.bias" key),
    (str_in "weight" key), (str_in "bias" key), (str_in "mlp.0.weight" key),
    num_classes; simpl; unfold dim;
    destruct (shape t !! 0), (shape t !! 1); simpl;
    first [by left | right; by eexists].
Qed.

Lemma infer_step_unreadable sd st key t :
  sd_get sd key = Some t → unreadable sd key →
  infer_step sd st key = ([], Raise out_of_range).
Proof.
  intros Hget. destruct st as [input_size num_classes].
  unfold unreadable, weight_branch, last_layer_key, first_layer_key, dim_of.
  unfold infer_step, getitem. rewrite Hget.
  destruct (str_in "mlp.6.weight" key), (str_in "mlp.6.bias" key),
    (str_in "weight" key), (str_in "bias" key), (str_in "mlp.0.weight" key),
    num_classes; simpl; unfold dim;
    destruct (shape t !! 0), (shape t !! 1); simpl;
    intros [[? ?]|[? ?]]; done.
Qed.

Lemma for_each_infer_unreadable sd ks st :
  (∀ k, k ∈ ks → k ∈ keys sd) →
  (∃ k, k ∈ ks ∧ unreadable sd k) →
  for_each (infer_step sd) st ks = ([], Raise out_of_range).
Proof.
  revert st. induction ks as [|key ks IH]; intros st Hsub (k & Hk & Hbad).
  { by apply elem_of_nil in Hk. }
  destruct (sd_get_is_Some sd key) as [t Hget].
  { apply Hsub, list_elem_of_here. }
  cbn [for_each].
  destruct (infer_step_on_key sd st key t Hget) as [->|[st' Hst']]; [done|].
  rewrite Hst', bind_return. rewrite IH; [done| |].
  - intros k' Hk'. by apply Hsub, list_elem_of_further.
  - apply elem_of_cons in Hk as [->|Hk]; [|by exists k].
    rewrite (infer_step_unreadable sd st key t Hget Hbad) in Hst'. done.
Qed.

(** X7.  When the tensor under a name containing [mlp.0.weight] has no
    second dimension, or the tensor under a name of the weight arm has no
    first one, the loop stops with the [IndexError] of the tuple: nothing
    is printed by the reconstruction, and [get_model] raises its
    [RuntimeError] with that message. *)
Theorem reconstruct_index_error sd :
  (∃ k, k ∈ keys sd ∧ unreadable sd k) →
  reconstruct sd = ([], Raise (IndexError "tuple index out of range")) ∧
  ∀ w ty,
    torch_load w "composition_classifier.pt" = inr (PDict ty sd) →
    get_model w =
    ([Stdout "Attempting to load full model from file...";
      Stdout (nl +:+ "⚠️  Model was saved as state_dict. Reconstructing architecture...")],
     Raise (RuntimeError "Could not load model: tuple index out of range")).
Proof.
  intros Hbad.
  assert (reconstruct sd = ([], Raise out_of_range)) as Hrec.
  { unfold reconstruct, infer_dims.
    by rewrite (for_each_infer_unreadable sd (keys sd) _ (λ _ H, H) Hbad). }
  split; [done|]. intros w ty Hload.
  unfold get_model. cbn zeta. rewrite Hload. simpl. by rewrite Hrec.
Qed.

Lemma filter_same (P Q : string → bool) (ks : list string) :
  (∀ k, k ∈ ks → P k = Q k) →
  filter (λ k, P k = true) ks = filter (λ k, Q k = true) ks.
Proof.
  intros H. induction ks as [|k ks IH]; [done|].
  rewrite !filter_cons, (H k) by apply list_elem_of_here.
  rewrite IH; [done|]. intros k' Hk'. by apply H, list_elem_of_further.
Qed.

(** X8.  When no name goes through the weight arm, the number of classes
    found is [shape[0]] of the tensor under the first name, in iteration
    order, that contains [mlp.6.bias]; later biases do not replace it. *)
Theorem num_classes_from_first_bias sd :
  (∀ k, k ∈ keys sd → weight_branch k = false) →
  (∃ k, k ∈ keys sd ∧ last_layer_key k = true) →
  dims_available sd →
  ∃ k t n,
    head (filter (λ k, str_in "mlp.6.bias" k = true) (keys sd)) = Some k ∧
    sd_get sd k = Some t ∧ shape t !! 0 = Some n ∧
    infer_dims sd = ([], Return (input_size_of sd, Some n)).
Proof.
  intros HW HL Hd.
  assert (filter (λ k, last_layer_key k = true) (keys sd)
          = filter (λ k, str_in "mlp.6.bias" k = true) (keys sd)) as Hfilter.
  { apply filter_same. intros k Hk.
    specialize (HW k Hk). unfold weight_branch, last_layer_key in *.
    pose proof (last_weight_is_weight k) as Hw.
    destruct (str_in "mlp.6.weight" k), (str_in "mlp.6.bias" k),
      (str_in "weight" k); simpl in *; try done; by specialize (Hw eq_refl). }
  destruct (num_classes_is_Some _ Hd HL) as [n Hn].
  unfold num_classes_of, deciding_key in Hn.
  rewrite (filter_none weight_branch _ HW) in Hn. cbn [last] in Hn.
  rewrite Hfilter in Hn.
  destruct (head (filter _ (keys sd))) as [k|] eqn:Ek; [|done].
  simpl in Hn. unfold dim_of in Hn.
  destruct (sd_get sd k) as [t|] eqn:Et; [|done]. simpl in Hn.
  exists k, t, n. split; [done|]. split; [done|]. split; [done|].
  rewrite (infer_dims_ok _ Hd). do 3 f_equal.
  unfold num_classes_of, deciding_key.
  rewrite (filter_none weight_branch _ HW). cbn [last].
  rewrite Hfilter, Ek. simpl. unfold dim_of. by rewrite Et.
Qed.

(** X9.  With every dimension that is read in place, the reconstruction
    raises the error that the architecture could not be inferred exactly
    when no number of classes is found or the one found is zero, whatever
    the input size. *)
Theorem reconstruct_could_not_infer_iff sd :
  dims_available sd →
  (reconstruct sd).2 =
    Raise (ValueError "Could not infer model architecture from state_dict")
  ↔ num_classes_of sd = None ∨ num_classes_of sd = Some 0.
Proof.
  intros Hd. rewrite (reconstruct_ok _ Hd). cbn [snd].
  destruct (input_size_of sd) as [[|i]|], (num_classes_of sd) as [[|n]|];
    simpl; (split; [intros ?|intros [?|?]]);
    first [done | by left | by right].
Qed.

(** X10.  An input size of zero is not used: when the second dimension
    found is 0 and the number of classes is not, the model is built with
    input size 512. *)
Theorem reconstruct_zero_width_default sd n :
  dims_available sd →
  input_size_of sd = Some 0 →
  num_classes_of sd = Some n →
  n ≠ 0 →
  reconstruct sd = (inferred_lines (Some 0) (Some n), Return (MLPHead 512 n)).
Proof.
  intros Hd Hi Hn Hne. rewrite (reconstruct_ok _ Hd), Hi, Hn.
  by destruct n.
Qed.

Lemma sd_get_insert_other sd1 sd2 k t key :
  key ≠ k → sd_get (sd1 ++ (k, t) :: sd2) key = sd_get (sd1 ++ sd2) key.
Proof.
  intros Hne. induction sd1 as [|[k' t'] sd1 IH]; simpl.
  - by rewrite decide_False.
  - by rewrite IH.
Qed.

Lemma infer_step_same_tensor sd sd' st key :
  (first_layer_key key = true ∨ last_layer_key key = true →
   sd_get sd key = sd_get sd' key) →
  infer_step sd st key = infer_step sd' st key.
Proof.
  destruct st as [input_size num_classes].
  unfold first_layer_key, last_layer_key, infer_step, getitem.
  destruct (str_in "mlp.6.weight" key), (str_in "mlp.6.bias" key),
    (str_in "mlp.0.weight" key); simpl; intros H;
    try rewrite H by auto; done.
Qed.

Lemma infer_step_foreign sd st key :
  first_layer_key key = false → last_layer_key key = false →
  infer_step sd st key = ([], Return st).
Proof.
  destruct st as [input_size num_classes].
  unfold first_layer_key, last_layer_key, infer_step. by intros -> ->.
Qed.

Lemma bind_ext {A B} (m : io V A) (f g : A → io V B) :
  (∀ a, f a = g a) → m ≫= f = m ≫= g.
Proof.
  intros H. destruct m as [out [a|e|c]]; [|done|done].
  unfold mbind, io_bind. by rewrite H.
Qed.

Lemma for_each_ext {A S} (f g : S → A → io V S) st l :
  (∀ st x, f st x = g st x) → for_each f st l = for_each g st l.
Proof.
  intros H. revert st. induction l as [|x l IH]; intros st; [done|].
  cbn [for_each]. rewrite H. by apply bind_ext.
Qed.

Lemma for_each_skip {A S} (f : S → A → io V S) st l1 x l2 :
  (∀ st, f st x = ([], Return st)) →
  for_each f st (l1 ++ x :: l2) = for_each f st (l1 ++ l2).
Proof.
  intros Hx. revert st. induction l1 as [|y l1 IH]; intros st.
  - cbn [app for_each]. rewrite Hx, bind_return. cbn [app].
    by destruct (for_each f st l2).
  - cbn [app for_each]. by apply bind_ext.
Qed.

(** X11.  An entry whose name contains none of [mlp.0.weight],
    [mlp.6.weight], [mlp.6.bias] has no part in the reconstruction: with
    or without it, wherever it stands, the lines printed and the model or
    error are the same. *)
Theorem reconstruct_ignores_foreign sd1 sd2 k t :
  first_layer_key k = false →
  last_layer_key k = false →
  reconstruct (sd1 ++ (k, t) :: sd2) = reconstruct (sd1 ++ sd2).
Proof.
  intros HF HL. unfold reconstruct. f_equal. unfold infer_dims, keys.
  rewrite !fmap_app, fmap_cons. cbn [fst].
  rewrite (for_each_ext _ (infer_step (sd1 ++ sd2))).
  - apply for_each_skip. intros st. by apply infer_step_foreign.
  - intros st key. apply infer_step_same_tensor. intros Hrel.
    apply sd_get_insert_other. intros ->. destruct Hrel; congruence.
Qed.

(** ** How a run of the exporter ends *)

(** The run of the exporter on a checkpoint that exists, by the way
    [get_model] and [open] end. *)
Lemma export_weights_present w :
  path_exists w "composition_classifier.pt" = true →
  export_weights w =
  match get_model w with
  | (out, Return model) =>
      match open_w w "mlp_weights.json" with
      | None =>
          (Stdout "Loading model from composition_classifier.pt..." :: out
           ++ exported_lines (named_parameters model)
           ++ JsonDump "mlp_weights.json" (exported_map (named_parameters model))
              :: closing_lines,
           Return ())
      | Some e =>
          (Stdout "Loading model from composition_classifier.pt..." :: out
           ++ exported_lines (named_parameters model),
           Raise e)
      end
  | (out, Raise e) =>
      (Stdout "Loading model from composition_classifier.pt..." :: out, Raise e)
  | (out, Exit c) =>
      (Stdout "Loading model from composition_classifier.pt..." :: out, Exit c)
  end.
Proof.
  intros Hex. unfold export_weights. cbn zeta. rewrite Hex.
  destruct (get_model w) as [out [model|e|c]]; simpl; [|done|done].
  rewrite collect_weights_eq.
  destruct (open_w w "mlp_weights.json"); simpl; [|done].
  by rewrite app_nil_r.
Qed.

Lemma exported_lines_stdout (params : list (string * Tensor V)) :
  Forall (λ ev, is_stdout ev = true) (exported_lines params).
Proof. unfold exported_lines. apply Forall_fmap, Forall_true. done. Qed.

Lemma no_dump_in_stdout (l : list (event V)) path obj :
  Forall (λ ev, is_stdout ev = true) l → JsonDump path obj ∉ l.
Proof.
  rewrite Forall_forall. intros H Hin. by specialize (H _ Hin).
Qed.

(** X12.  A run of the exporter that ends normally had a checkpoint that
    exists, got a model from [get_model], and handed the mapping of that
    model's weights and biases to [json.dump] between the lines of the
    export loop and the closing lines. *)
Theorem export_return_dumped w :
  (export_weights w).2 = Return () →
  path_exists w "composition_classifier.pt" = true ∧
  ∃ out model,
    get_model w = (out, Return model) ∧
    export_weights w =
    (Stdout "Loading model from composition_classifier.pt..." :: out
     ++ exported_lines (named_parameters model)
     ++ JsonDump "mlp_weights.json" (exported_map (named_parameters model))
        :: closing_lines,
     Return ()).
Proof.
  destruct (path_exists w "composition_classifier.pt") eqn:Hex.
  - rewrite (export_weights_present _ Hex).
    destruct (get_model w) as [out [model|e|c]]; [|done|done].
    destruct (open_w w "mlp_weights.json"); [done|].
    intros _. split; [done|]. by exists out, model.
  - unfold export_weights. cbn zeta. rewrite Hex. done.
Qed.

(** X20.  Without a model nothing is handed to [json.dump]: this holds of
    every run on a missing checkpoint and of every run in which
    [get_model] raises. *)
Theorem export_no_dump_without_model w path obj :
  path_exists w "composition_classifier.pt" = false ∨
  (∃ e, (get_model w).2 = Raise e) →
  JsonDump path obj ∉ (export_weights w).1.
Proof.
  intros Hcase.
  destruct (path_exists w "composition_classifier.pt") eqn:Hex.
  - destruct Hcase as [?|[e He]]; [done|].
    rewrite (export_weights_present _ Hex).
    destruct (get_model_behaves w) as [Hout _].
    destruct (get_model w) as [out [model|e'|c]]; cbn [fst snd] in *;
      [done| |done].
    apply no_dump_in_stdout. by constructor.
  - unfold export_weights. cbn zeta. rewrite Hex. simpl.
    intros Hin. by apply list_elem_of_singleton in Hin.
Qed.

(** X13.  When the output file cannot be opened, the exporter raises the
    error of [open] after the lines of the export loop; nothing is dumped
    and the closing lines are not printed. *)
Theorem export_open_fails w out model e :
  path_exists w "composition_classifier.pt" = true →
  get_model w = (out, Return model) →
  open_w w "mlp_weights.json" = Some e →
  export_weights w =
  (Stdout "Loading model from composition_classifier.pt..." :: out
   ++ exported_lines (named_parameters model),
   Raise e).
Proof.
  intros Hex Hget Hopen. by rewrite (export_weights_present _ Hex), Hget, Hopen.
Qed.

Lemma nothing_exported (params : list (string * Tensor V)) :
  (∀ np, np ∈ params → is_exported np.1 = false) →
  exported_lines params = [] ∧ exported_map params = ∅.
Proof.
  intros H. unfold exported_lines, exported_map. generalize (∅ : gmap string (Entry V)).
  induction params as [|np params IH]; intros weights; [done|].
  assert (is_exported np.1 = false) as Hnp by apply H, list_elem_of_here.
  rewrite filter_cons, decide_False by (rewrite Hnp; done).
  cbn [foldl]. unfold keep_param at 2. rewrite Hnp.
  apply IH. intros np' Hnp'. by apply H, list_elem_of_further.
Qed.

(** X14.  A model none of whose parameter names contains [weight] or
    [bias] is exported as the empty mapping: the file is still written,
    and no line of the export loop is printed. *)
Theorem export_nothing_to_export w out model :
  path_exists w "composition_classifier.pt" = true →
  get_model w = (out, Return model) →
  open_w w "mlp_weights.json" = None →
  (∀ np, np ∈ named_parameters model →
         str_in "weight" np.1 || str_in "bias" np.1 = false) →
  export_weights w =
  (Stdout "Loading model from composition_classifier.pt..." :: out
   ++ JsonDump "mlp_weights.json" ∅ :: closing_lines,
   Return ()).
Proof.
  intros Hex Hget Hopen Hnone.
  rewrite (export_weights_present _ Hex), Hget, Hopen.
  by destruct (nothing_exported _ Hnone) as [-> ->].
Qed.

(** X15.  The exporter leaves the process through [sys.exit] only for a
    missing checkpoint, and then with status 1. *)
Theorem export_exit_iff_missing w c :
  (export_weights w).2 = Exit c
  ↔ path_exists w "composition_classifier.pt" = false ∧ c = 1%Z.
Proof.
  destruct (path_exists w "composition_classifier.pt") eqn:Hex.
  - rewrite (export_weights_present _ Hex).
    destruct (get_model_behaves w) as [_ Hend].
    destruct (get_model w) as [out [model|e|c']]; cbn [snd] in *.
    + destruct (open_w w "mlp_weights.json"); cbn [snd];
        (split; [done | by intros [? _]]).
    + split; [done | by intros [? _]].
    + done.
  - unfold export_weights. cbn zeta. rewrite Hex. simpl. split.
    + by intros [= <-].
    + by intros [_ ->].
Qed.

(** ** How a run of the inspector ends *)

Lemma inspect_model_load_raises_eq w model_path e :
  path_exists w model_path = true →
  torch_load w model_path = inl e →
  inspect_model w model_path =
  ([Stdout ("Inspecting " +:+ model_path +:+ "..." +:+ nl);
    Stdout ("Error loading file: " +:+ exn_str e);
    Traceback e],
   Return false).
Proof. intros Hex Hload. unfold inspect_model. by rewrite Hex, Hload. Qed.

(** X17.  On a checkpoint that exists, the inspector returns [True]
    exactly when [torch.load] hands back a module; a dict, any other
    object and a failed load all give [False]. *)
Theorem inspect_true_iff_module w model_path :
  path_exists w model_path = true →
  (inspect_model w model_path).2 = Return true
  ↔ ∃ ty cls repr params,
      torch_load w model_path = inr (PModule ty cls repr params).
Proof.
  intros Hex.
  destruct (torch_load w model_path)
    as [e|[ty cls repr params|ty sd|ty tn sh]] eqn:Hload.
  - rewrite (inspect_model_load_raises_eq _ _ _ Hex Hload).
    split; [done | by intros (? & ? & ? & ? & ?)].
  - split; [by eexists _, _, _, _|]. intros _.
    unfold inspect_model. by rewrite Hex, Hload.
  - rewrite (inspect_dict_returns_false _ _ _ _ Hex Hload).
    split; [done | by intros (? & ? & ? & ? & ?)].
  - split; [|by intros (? & ? & ? & ? & ?)].
    unfold inspect_model. by rewrite Hex, Hload.
Qed.

(** X18.  The inspector lets no exception out: a run either exits with
    status 1, for a missing checkpoint, or returns a boolean. *)
Theorem inspect_exits_or_returns w model_path :
  (path_exists w model_path = false ∧
   (inspect_model w model_path).2 = Exit 1)
  ∨ (path_exists w model_path = true ∧
     ∃ b, (inspect_model w model_path).2 = Return b).
Proof.
  destruct (path_exists w model_path) eqn:Hex.
  - right. split; [done|].
    destruct (torch_load w model_path)
      as [e|[ty cls repr params|ty sd|ty tn sh]] eqn:Hload.
    + exists false. by rewrite (inspect_model_load_raises_eq _ _ _ Hex Hload).
    + exists true. unfold inspect_model. by rewrite Hex, Hload.
    + exists false. by apply (inspect_dict_returns_false _ _ ty sd).
    + exists false. unfold inspect_model. by rewrite Hex, Hload.
  - left. split; [done|]. by rewrite inspect_model_missing.
Qed.

(** When [torch.load] raises, the inspector prints the message after
    its first line, prints the traceback, and returns [False]. *)
Theorem inspect_load_raises w model_path e :
  path_exists w model_path = true →
  torch_load w model_path = inl e →
  inspect_model w model_path =
  ([Stdout ("Inspecting " +:+ model_path +:+ "..." +:+ nl);
    Stdout ("Error loading file: " +:+ exn_str e);
    Traceback e],
   Return false).
Proof. apply inspect_model_load_raises_eq. Qed.

Lemma report_head_no_dim sd key rest :
  has_key sd key = true → dim_of sd 0 key = None →
  report_head sd (key :: rest) = ([], Raise out_of_range).
Proof.
  intros Hk Hn. cbn [report_head]. rewrite Hk.
  apply bool_decide_eq_true_1 in Hk.
  destruct (sd_get_is_Some sd key Hk) as [t Ht].
  unfold getitem, dim, dim_of in *. rewrite Ht in *. simpl in *.
  by rewrite Hn.
Qed.

Lemma report_head_fails sd key :
  head_key sd = Some key → dim_of sd 0 key = None →
  (if has_key sd "classifier.weight" || has_key sd "fc.weight"
      || has_key sd "head.weight"
   then report_head sd ["classifier.weight"; "fc.weight"; "head.weight"]
   else mret ())
  = ([], Raise out_of_range).
Proof.
  intros Hkey Hn. unfold head_key in Hkey. cbn [list_find] in Hkey.
  destruct (has_key sd "classifier.weight") eqn:E1.
  { rewrite decide_True in Hkey by done. simpl in Hkey. injection Hkey as <-.
    cbn [orb]. by apply report_head_no_dim. }
  rewrite decide_False in Hkey by done. rewrite (report_head_miss _ _ _ E1).
  destruct (has_key sd "fc.weight") eqn:E2.
  { rewrite decide_True in Hkey by done. simpl in Hkey. injection Hkey as <-.
    cbn [orb]. by apply report_head_no_dim. }
  rewrite decide_False in Hkey by done. rewrite (report_head_miss _ _ _ E2).
  destruct (has_key sd "head.weight") eqn:E3.
  { rewrite decide_True in Hkey by done. simpl in Hkey. injection Hkey as <-.
    cbn [orb]. by apply report_head_no_dim. }
  rewrite decide_False in Hkey by done. done.
Qed.

(** X19.  When the first conventional head name that the dict holds maps
    to a tensor without dimensions, the inspector lists the entries as
    usual, then reports the [IndexError] with its traceback instead of a
    class count, leaves out the two closing lines, and returns [False]. *)
Theorem inspect_scalar_head w model_path ty sd key :
  path_exists w model_path = true →
  torch_load w model_path = inr (PDict ty sd) →
  NoDup (keys sd) →
  head_key sd = Some key →
  dim_of sd 0 key = None →
  inspect_model w model_path =
  (dict_heading model_path ty sd
   ++ (layer_line <$> take 10 sd)
   ++ more_lines sd
   ++ [Stdout "Error loading file: tuple index out of range";
       Traceback (IndexError "tuple index out of range")],
   Return false).
Proof.
  intros Hex Hload Hnd Hkey Hdim. unfold inspect_model.
  assert (for_each (show_layer sd) () (take 10 (keys sd))
          = (layer_line <$> take 10 sd, Return ())) as HL.
  { unfold keys. rewrite <- fmap_take. apply for_each_show.
    intros [k t] Hkv. apply sd_get_elem_of; [done|].
    by apply (subseteq_take 10 sd). }
  rewrite Hex, Hload.
  with_strategy opaque [for_each report_head has_key] simpl.
  rewrite HL, (report_head_fails _ _ Hkey Hdim). simpl.
  unfold more_lines. destruct (decide (10 < length sd)) as [Hlen|Hlen].
  - rewrite bool_decide_eq_true_2 by done. simpl.
    rewrite <- !app_assoc. reflexivity.
  - rewrite bool_decide_eq_false_2 by done. simpl.
    rewrite <- !app_assoc. reflexivity.
Qed.

(** ** The number of classes when weights and biases are both there *)

(** X21.  When some name contains [mlp.6.weight], some name contains
    [mlp.6.bias], every dimension that the loop reads is in place, and no
    bias name has the word [weight] elsewhere in it, the number of classes
    found is [shape[0]] of the tensor under the last name, in iteration
    order, that contains [mlp.6.weight]: a weight overwrites what a bias
    or an earlier weight has set, and a bias never overwrites a weight. *)
Theorem num_classes_from_last_weight sd :
  (∃ k, k ∈ keys sd ∧ str_in "mlp.6.weight" k = true) →
  (∃ k, k ∈ keys sd ∧ str_in "mlp.6.bias" k = true) →
  dims_available sd →
  (∀ k, k ∈ keys sd → str_in "mlp.6.bias" k = true →
        str_in "weight" k = true → str_in "mlp.6.weight" k = true) →
  ∃ k t n,
    last (filter (λ k, str_in "mlp.6.weight" k = true) (keys sd)) = Some k ∧
    sd_get sd k = Some t ∧ shape t !! 0 = Some n ∧
    infer_dims sd = ([], Return (input_size_of sd, Some n)).
Proof.
  intros Hw Hb Hd Hclean.
  destruct (num_classes_from_weight_arm sd Hw Hb Hd)
    as (k & t & n & E & _ & Ht & Hn & Hinf).
  exists k, t, n. split; [|done].
  rewrite <- E. f_equal. symmetry.
  apply (filter_same weight_branch (str_in "mlp.6.weight")). intros k' Hk'.
  specialize (Hclean k' Hk'). pose proof (last_weight_is_weight k') as Hww.
  unfold weight_branch, last_layer_key.
  destruct (str_in "mlp.6.weight" k'), (str_in "mlp.6.bias" k'),
    (str_in "weight" k'); simpl in *; try done.
  - by specialize (Hww eq_refl).
  - by specialize (Hww eq_refl).
  - by specialize (Hclean eq_refl eq_refl).
Qed.

End MoreProofs.

(** * The further properties at the sample checkpoints *)

Lemma get_model_unpickled_iff_witness :
  get_model Samples.world_module =
  ([Stdout "Attempting to load full model from file...";
    Stdout "✓ Successfully loaded full model"],
   Return (Unpickled Samples.params_small)).
Proof.
  apply (proj1 (get_model_unpickled_iff Samples.world_module Samples.params_small)).
  by eexists _, _, _.
Defined.

Lemma get_model_load_raises_witness :
  get_model Samples.world_corrupt =
  ([Stdout "Attempting to load full model from file...";
    Stdout "Could not load as full model: invalid load key";
    Stdout "Trying to load as state_dict..."],
   Raise (RuntimeError "Could not load model: invalid load key")).
Proof.
  apply (get_model_load_raises Samples.world_corrupt
           (OtherError "invalid load key")).
  reflexivity.
Defined.

Lemma get_model_prints_only_witness :
  ∃ line, Stdout "✓ Successfully loaded full model" = Stdout (V:=nat) line.
Proof.
  apply (get_model_prints_only Samples.world_module).
  vm_compute. apply list_elem_of_further, list_elem_of_here.
Defined.

Lemma get_model_rebuilds_witness :
  get_model Samples.world_full =
  (Stdout "Attempting to load full model from file..."
   :: Stdout (nl +:+ "⚠️  Model was saved as state_dict. Reconstructing architecture...")
   :: inferred_lines (Some 2) (Some 1)
   ++ [Stdout "✓ Successfully loaded model from state_dict"],
   Return (Rebuilt (MLPHead 2 1) Samples.sd_full)).
Proof.
  apply (get_model_rebuilds Samples.world_full
           "<class 'collections.OrderedDict'>" Samples.sd_full).
  - reflexivity.
  - reflexivity.
  - reflexivity.
Defined.

Lemma get_model_load_rejected_witness :
  get_model Samples.world_small =
  (Stdout "Attempting to load full model from file..."
   :: Stdout (nl +:+ "⚠️  Model was saved as state_dict. Reconstructing architecture...")
   :: inferred_lines (Some 5) (Some 3),
   Raise (RuntimeError
     "Could not load model: Error(s) in loading state_dict for MLPHead")).
Proof.
  apply (get_model_load_rejected Samples.world_small
           "<class 'collections.OrderedDict'>" Samples.sd_small
           (inferred_lines (Some 5) (Some 3)) (MLPHead 5 3)
           (RuntimeError "Error(s) in loading state_dict for MLPHead")).
  - reflexivity.
  - vm_compute. reflexivity.
  - vm_compute. reflexivity.
Defined.

Lemma reconstruct_index_error_witness :
  reconstruct Samples.sd_flat_first =
    ([], Raise (IndexError "tuple index out of range")) ∧
  ∀ w ty,
    torch_load w "composition_classifier.pt"
    = inr (PDict ty Samples.sd_flat_first) →
    get_model w =
    ([Stdout "Attempting to load full model from file...";
      Stdout (nl +:+ "⚠️  Model was saved as state_dict. Reconstructing architecture...")],
     Raise (RuntimeError "Could not load model: tuple index out of range")).
Proof.
  apply (reconstruct_index_error Samples.sd_flat_first).
  exists "mlp.0.weight". split; [by_decide|]. left. split; reflexivity.
Defined.

Lemma num_classes_from_first_bias_witness :
  ∃ k t n,
    head (filter (λ k, str_in "mlp.6.bias" k = true) (keys Samples.sd_bias_only))
    = Some k ∧
    sd_get Samples.sd_bias_only k = Some t ∧ shape t !! 0 = Some n ∧
    infer_dims Samples.sd_bias_only =
    ([], Return (input_size_of Samples.sd_bias_only, Some n)).
Proof.
  apply (num_classes_from_first_bias Samples.sd_bias_only).
  - apply Forall_forall. by_decide.
  - has_name "a.mlp.6.bias".
  - by_decide.
Defined.

Lemma reconstruct_could_not_infer_iff_witness :
  (reconstruct Samples.sd_zero_classes).2 =
  Raise (ValueError "Could not infer model architecture from state_dict").
Proof.
  apply (proj2 (reconstruct_could_not_infer_iff Samples.sd_zero_classes
                  ltac:(by_decide))).
  right. reflexivity.
Defined.

Lemma reconstruct_zero_width_default_witness :
  reconstruct Samples.sd_zero_width =
  (inferred_lines (Some 0) (Some 12), Return (MLPHead 512 12)).
Proof.
  apply (reconstruct_zero_width_default Samples.sd_zero_width 12).
  - by_decide.
  - reflexivity.
  - reflexivity.
  - discriminate.
Defined.

Lemma reconstruct_ignores_foreign_witness :
  reconstruct
    ([("mlp.0.weight", Samples.arange [2; 5])]
     ++ ("encoder.weight", Samples.arange [2; 2])
     :: [("mlp.6.weight", Samples.arange [3; 4])])
  = reconstruct
      ([("mlp.0.weight", Samples.arange [2; 5])]
       ++ [("mlp.6.weight", Samples.arange [3; 4])]).
Proof.
  apply (reconstruct_ignores_foreign
           [("mlp.0.weight", Samples.arange [2; 5])]
           [("mlp.6.weight", Samples.arange [3; 4])]
           "encoder.weight" (Samples.arange [2; 2])); reflexivity.
Defined.

Lemma export_return_dumped_witness :
  path_exists Samples.world_module "composition_classifier.pt" = true ∧
  ∃ out model,
    get_model Samples.world_module = (out, Return model) ∧
    export_weights Samples.world_module =
    (Stdout "Loading model from composition_classifier.pt..." :: out
     ++ exported_lines (named_parameters model)
     ++ JsonDump "mlp_weights.json" (exported_map (named_parameters model))
        :: closing_lines,
     Return ()).
Proof. apply (export_return_dumped Samples.world_module). reflexivity. Defined.

Lemma export_no_dump_without_model_witness :
  JsonDump "mlp_weights.json" ∅ ∉ (export_weights Samples.world_corrupt).1.
Proof.
  apply (export_no_dump_without_model Samples.world_corrupt).
  right. eexists. reflexivity.
Defined.

Lemma export_open_fails_witness :
  export_weights Samples.world_read_only =
  ([Stdout "Loading model from composition_classifier.pt...";
    Stdout "Attempting to load full model from file...";
    Stdout "✓ Successfully loaded full model";
    Stdout "  Exported fc.weight: shape [2, 3]";
    Stdout "  Exported fc.bias: shape [2]"],
   Raise (OtherError "[Errno 13] Permission denied: 'mlp_weights.json'")).
Proof.
  apply (export_open_fails Samples.world_read_only
           [Stdout "Attempting to load full model from file...";
            Stdout "✓ Successfully loaded full model"]
           (Unpickled Samples.params_small));
    reflexivity.
Defined.

Lemma export_nothing_to_export_witness :
  export_weights Samples.world_plain =
  (Stdout "Loading model from composition_classifier.pt..."
   :: [Stdout "Attempting to load full model from file...";
       Stdout "✓ Successfully loaded full model"]
   ++ JsonDump "mlp_weights.json" ∅ :: closing_lines,
   Return ()).
Proof.
  apply (export_nothing_to_export Samples.world_plain
           [Stdout "Attempting to load full model from file...";
            Stdout "✓ Successfully loaded full model"]
           (Unpickled Samples.params_plain)).
  - reflexivity.
  - reflexivity.
  - reflexivity.
  - intros np Hnp. simpl in Hnp.
    repeat (apply elem_of_cons in Hnp as [->|Hnp]; [reflexivity|]).
    by apply elem_of_nil in Hnp.
Defined.

Lemma export_exit_iff_missing_witness :
  (export_weights Samples.world_missing).2 = Exit 1.
Proof.
  apply (proj2 (export_exit_iff_missing Samples.world_missing 1)).
  split; reflexivity.
Defined.

Lemma inspect_true_iff_module_witness :
  (inspect_model Samples.world_module "composition_classifier.pt").2
  = Return true.
Proof.
  apply (proj2 (inspect_true_iff_module Samples.world_module
                  "composition_classifier.pt" eq_refl)).
  by eexists _, _, _, _.
Defined.

Lemma inspect_load_raises_witness :
  inspect_model Samples.world_corrupt "composition_classifier.pt" =
  ([Stdout ("Inspecting composition_classifier.pt..." +:+ nl);
    Stdout "Error loading file: invalid load key";
    Traceback (OtherError "invalid load key")],
   Return false).
Proof.
  apply (inspect_load_raises Samples.world_corrupt "composition_classifier.pt"
           (OtherError "invalid load key")); reflexivity.
Defined.

Lemma inspect_scalar_head_witness :
  inspect_model Samples.world_scalar_head "composition_classifier.pt" =
  ([Stdout ("Inspecting composition_classifier.pt..." +:+ nl);
    Stdout "Type: <class 'dict'>";
    Stdout "⚠️  This is a state_dict (saved with torch.save(model.state_dict(), ...))";
    Stdout "  Number of layers: 2";
    Stdout (nl +:+ "  Layer names:");
    Stdout "    - body.weight: shape torch.Size([2, 2])";
    Stdout "    - fc.weight: shape torch.Size([])";
    Stdout "Error loading file: tuple index out of range";
    Traceback (IndexError "tuple index out of range")],
   Return false).
Proof.
  rewrite (inspect_scalar_head Samples.world_scalar_head
             "composition_classifier.pt" "<class 'dict'>"
             Samples.sd_scalar_head "fc.weight").
  - reflexivity.
  - reflexivity.
  - reflexivity.
  - by_decide.
  - reflexivity.
  - reflexivity.
Defined.

Lemma num_classes_from_last_weight_witness :
  ∃ k t n,
    last (filter (λ k, str_in "mlp.6.weight" k = true)
            (keys Samples.sd_small)) = Some k ∧
    sd_get Samples.sd_small k = Some t ∧ shape t !! 0 = Some n ∧
    infer_dims Samples.sd_small =
    ([], Return (input_size_of Samples.sd_small, Some n)).
Proof.
  apply (num_classes_from_last_weight Samples.sd_small).
  - has_name "mlp.6.weight".
  - has_name "mlp.6.bias".
  - by_decide.
  - apply (Forall_forall
             (λ k, str_in "mlp.6.bias" k = true → str_in "weight" k = true →
                   str_in "mlp.6.weight" k = true)).
    by_decide.
Defined.
